(** * rplacem.time_series: rolling statistics over a time-dependent variable

    A shallow embedding of [src/rplacem/time_series.py] and the properties
    of its setters.

    Conventions of the embedding:
    - a numpy float is a rational extended with the IEEE special values
      [+inf], [-inf] and [nan]; every addition, subtraction,
      multiplication and division rounds its exact result through the
      rounding of the class [Rounding], which may overflow to an
      infinity. The theorems hold for every rounding that keeps 0 and 1
      and yields no [nan]; the concrete series are run with [binary64],
      IEEE round-to-nearest-even, the rounding of numpy's [float64].
      Signed zeros are not told apart, and an integer is converted to a
      float without rounding;
    - a 1-d numpy array or pandas Series is a [list npfloat], a [float64]
      array;
    - a method of [TimeSeries] is a computation of the [Py] monad: it
      reads and mutates the object and either returns or raises, and the
      mutations made before an exception stay visible;
    - an attribute that [__init__] may leave unset is an [option] field,
      and reading it while unset raises [AttributeError];
    - routines of pandas and scipy that act on one window, the figure
      directory and the contents of fresh memory are fields of the class
      [Libraries]; every theorem holds for all of them. *)

From Stdlib Require Import String ZArith QArith Qcanon Qround Bool List Lia.
Import ListNotations.

Set Implicit Arguments.

(* ================================================================== *)
(** * Numbers *)
(* ================================================================== *)

Inductive npfloat : Type :=
| Fin (q : Qc)
| PInf
| NInf
| NaN.

Declare Scope npfloat_scope.
Delimit Scope npfloat_scope with f.
Bind Scope npfloat_scope with npfloat.

Definition of_Z (z : Z) : npfloat := Fin (Q2Qc (inject_Z z)).
Definition of_nat (n : nat) : npfloat := of_Z (Z.of_nat n).

Definition isnan (x : npfloat) : bool :=
  match x with NaN => true | _ => false end.

Definition isinf (x : npfloat) : bool :=
  match x with PInf | NInf => true | _ => false end.

Definition isfinite (x : npfloat) : bool :=
  match x with Fin _ => true | _ => false end.

Definition fneg (x : npfloat) : npfloat :=
  match x with
  | Fin q => Fin (- q)%Qc
  | PInf => NInf
  | NInf => PInf
  | NaN => NaN
  end.

(** The rounding of the floating-point unit: the float that stands for
    an exact rational result. *)
Class Rounding : Type := {
  round : Qc -> npfloat;
  round_zero : round 0%Qc = Fin 0%Qc;
  round_one : round 1%Qc = Fin 1%Qc;
  round_not_nan : forall q : Qc, isnan (round q) = false
}.

Definition fadd {R : Rounding} (x y : npfloat) : npfloat :=
  match x, y with
  | NaN, _ | _, NaN => NaN
  | Fin a, Fin b => round (a + b)%Qc
  | PInf, NInf | NInf, PInf => NaN
  | PInf, _ | _, PInf => PInf
  | NInf, _ | _, NInf => NInf
  end.

Definition fsub {R : Rounding} (x y : npfloat) : npfloat := fadd x (fneg y).

(** The infinity whose sign is the sign of [c]; [nan] for a zero factor. *)
Definition signed_inf (c : comparison) : npfloat :=
  match c with Gt => PInf | Lt => NInf | Eq => NaN end.

Definition fmul {R : Rounding} (x y : npfloat) : npfloat :=
  match x, y with
  | NaN, _ | _, NaN => NaN
  | Fin a, Fin b => round (a * b)%Qc
  | PInf, Fin b | Fin b, PInf => signed_inf (b ?= 0)%Qc
  | NInf, Fin b | Fin b, NInf => signed_inf (CompOpp (b ?= 0)%Qc)
  | PInf, PInf | NInf, NInf => PInf
  | PInf, NInf | NInf, PInf => NInf
  end.

(** numpy's true division: dividing by zero yields an infinity or [nan]
    (with a warning), it does not raise. *)
Definition fdiv {R : Rounding} (x y : npfloat) : npfloat :=
  match x, y with
  | NaN, _ | _, NaN => NaN
  | Fin a, Fin b =>
      if Qc_eq_bool b 0 then signed_inf (a ?= 0)%Qc else round (a / b)%Qc
  | Fin _, (PInf | NInf) => Fin 0%Qc
  | PInf, Fin b => if Qc_eq_bool b 0 then PInf else signed_inf (b ?= 0)%Qc
  | NInf, Fin b =>
      if Qc_eq_bool b 0 then NInf else signed_inf (CompOpp (b ?= 0)%Qc)
  | (PInf | NInf), (PInf | NInf) => NaN
  end.

(** [==] on floats: [nan] differs from everything, itself included. *)
Definition feqb (x y : npfloat) : bool :=
  match x, y with
  | Fin a, Fin b => Qc_eq_bool a b
  | PInf, PInf | NInf, NInf => true
  | _, _ => false
  end.

Definition fltb (x y : npfloat) : bool :=
  match x, y with
  | NaN, _ | _, NaN => false
  | Fin a, Fin b => match (a ?= b)%Qc with Lt => true | _ => false end
  | NInf, (Fin _ | PInf) => true
  | Fin _, PInf => true
  | _, _ => false
  end.

Infix "+" := fadd : npfloat_scope.
Infix "-" := fsub : npfloat_scope.
Infix "*" := fmul : npfloat_scope.
Infix "/" := fdiv : npfloat_scope.
Infix "==" := feqb (at level 70, no associativity) : npfloat_scope.

(** ** Rounding to [float64] *)

(** [floor (log2 (n / d))] for positive [n] and [d]. *)
Definition floor_log2 (n d : Z) : Z :=
  let k := (Z.log2 n - Z.log2 d)%Z in
  if (n * 2 ^ Z.max 0 (- k) <? d * 2 ^ Z.max 0 k)%Z then (k - 1)%Z else k.

(** The integer nearest to [n / d] for a positive [d]; a tie goes to the
    even one. *)
Definition nearest_even (n d : Z) : Z :=
  let fl := (n / d)%Z in
  match (2 * (n mod d) ?= d)%Z with
  | Lt => fl
  | Gt => (fl + 1)%Z
  | Eq => if Z.even fl then fl else (fl + 1)%Z
  end.

(** [m * 2 ^ e] *)
Definition scale2 (m e : Z) : Qc :=
  if (0 <=? e)%Z then Q2Qc (inject_Z (m * 2 ^ e))
  else Q2Qc (m # Z.to_pos (2 ^ (- e))).

(** IEEE 754 binary64, round to nearest, ties to even: a significand of
    53 bits, exponents of the last bit from -1074 (the subnormal numbers)
    to 971, and an infinity from [2 ^ 1024] on. *)
Definition round_binary64 (q : Qc) : npfloat :=
  let n := Z.abs (Qnum q) in
  let d := Zpos (Qden q) in
  if (n =? 0)%Z then Fin 0%Qc
  else
    let e := Z.max (floor_log2 n d - 52) (-1074) in
    let m := nearest_even (n * 2 ^ Z.max 0 (- e)) (d * 2 ^ Z.max 0 e) in
    if (1024 <=? Z.log2 m + e)%Z
    then (if (0 <? Qnum q)%Z then PInf else NInf)
    else Fin (scale2 (Z.sgn (Qnum q) * m) e).

#[export, refine] Instance binary64 : Rounding := {
  round := round_binary64
}.
Proof.
  - reflexivity.
  - vm_compute. apply f_equal, Qc_is_canon. reflexivity.
  - intros q. unfold round_binary64.
    destruct (Z.abs (Qnum q) =? 0)%Z; [reflexivity|].
    destruct (1024 <=? _)%Z; [|reflexivity].
    destruct (0 <? Qnum q)%Z; reflexivity.
Defined.

(** The literal [1e-4] of [set_t_pts]: the double nearest to one ten
    thousandth, [0x1.a36e2eb1c432dp-14]. *)
Definition eps_1e_4 : npfloat :=
  Fin (Q2Qc (7378697629483821 # 73786976294838206464)).

(* ================================================================== *)
(** * Exceptions and the two monads *)
(* ================================================================== *)

Inductive exn : Type :=
| AttributeError
| IndexError
| OverflowError
| TypeError
| UnboundLocalError
| ValueError
| ZeroDivisionError.

Inductive result (A : Type) : Type :=
| Ok (a : A)
| Raise (e : exn).

Arguments Ok {A} a.
Arguments Raise {A} e.

Definition rbind {A B : Type} (r : result A) (k : A -> result B) : result B :=
  match r with
  | Ok a => k a
  | Raise e => Raise e
  end.

Declare Scope result_scope.
Delimit Scope result_scope with result.

Notation "'let*' x ':=' c 'in' k" := (rbind c (fun x => k))
  (at level 61, x name, c at next level, right associativity) : result_scope.

Definition is_ok {A : Type} (r : result A) : bool :=
  match r with Ok _ => true | Raise _ => false end.

(* ================================================================== *)
(** * Python sequences and numpy arrays *)
(* ================================================================== *)

(** A slice bound as Python clips it: a negative bound counts from the
    end, and every bound is brought into [0, len]. *)
Definition clip_bound (len i : Z) : Z :=
  if (i <? 0)%Z then Z.max 0 (i + len) else Z.min i len.

Definition slice_start (len : Z) (start : option Z) : Z :=
  match start with Some i => clip_bound len i | None => 0%Z end.

Definition slice_stop (len : Z) (stop : option Z) : Z :=
  match stop with Some j => clip_bound len j | None => len end.

(** [l[start:stop]] *)
Definition py_slice {A : Type} (l : list A) (start stop : option Z) : list A :=
  let len := Z.of_nat (length l) in
  let a := slice_start len start in
  let b := slice_stop len stop in
  firstn (Z.to_nat (b - a)) (skipn (Z.to_nat a) l).

(** [l[i]] for a non-negative literal index *)
Definition getitem {A : Type} (l : list A) (i : nat) : result A :=
  match nth_error l i with
  | Some x => Ok x
  | None => Raise IndexError
  end.

Fixpoint replace_nth {A : Type} (l : list A) (i : nat) (x : A) : list A :=
  match l, i with
  | [], _ => []
  | _ :: t, O => x :: t
  | h :: t, S j => h :: replace_nth t j x
  end.

(** [l[i] = x] *)
Definition setitem {A : Type} (l : list A) (i : nat) (x : A) : result (list A) :=
  if (i <? length l)%nat then Ok (replace_nth l i x) else Raise IndexError.

(** [dst[start:stop] = src] on an array: the array keeps its length, and
    [src] must have the length of the slice or be a single element, which
    is then repeated. *)
Definition setslice {A : Type} (dst : list A) (start stop : option Z)
    (src : list A) : result (list A) :=
  let len := Z.of_nat (length dst) in
  let a := Z.to_nat (slice_start len start) in
  let k := Z.to_nat (slice_stop len stop - slice_start len start) in
  if (length src =? k)%nat then Ok (firstn a dst ++ src ++ skipn (a + k) dst)
  else
    match src with
    | [x] => Ok (firstn a dst ++ repeat x k ++ skipn (a + k) dst)
    | _ => Raise ValueError
    end.

Fixpoint map2 {A B C : Type} (f : A -> B -> C) (a : list A) (b : list B)
    : list C :=
  match a, b with
  | x :: a', y :: b' => f x y :: map2 f a' b'
  | _, _ => []
  end.

(** An elementwise operation on two 1-d arrays, with numpy's
    broadcasting: equal lengths, or one operand of length one. *)
Definition broadcast2 (f : npfloat -> npfloat -> npfloat)
    (a b : list npfloat) : result (list npfloat) :=
  if (length a =? length b)%nat then Ok (map2 f a b)
  else
    match a, b with
    | [x], _ => Ok (map (f x) b)
    | _, [y] => Ok (map (fun x => f x y) a)
    | _, _ => Raise ValueError
    end.

Fixpoint cumsum_from {R : Rounding} (acc : npfloat) (l : list npfloat)
    : list npfloat :=
  match l with
  | [] => []
  | x :: t => (acc + x)%f :: cumsum_from (acc + x)%f t
  end.

(** [np.cumsum]: the running sums from index 0 on, each the rounded sum
    of the one before and the next sample. *)
Definition np_cumsum {R : Rounding} (l : list npfloat) : list npfloat :=
  match l with
  | [] => []
  | x :: t => x :: cumsum_from x t
  end.

(** [np.arange(a, b)] on integers *)
Definition np_arange_int (a b : Z) : list Z :=
  map (fun i => (a + Z.of_nat i)%Z) (seq 0 (Z.to_nat (b - a))).

(** [np.arange(start, stop, step)] on floats: [ceil((stop - start)/step)]
    elements, the quotient being computed in floats. The first is
    [start], the second [start + step], and the one of index [i >= 2] is
    [start + i * delta] where [delta] is the difference of the first
    two. *)
Definition np_arange {R : Rounding} (start stop step : npfloat)
    : result (list npfloat) :=
  if (step == of_Z 0)%f then Raise ZeroDivisionError
  else
    match ((stop - start) / step)%f with
    | Fin q =>
        let next := (start + step)%f in
        let delta := (next - start)%f in
        Ok (map (fun i => match i with
                          | 0%nat => start
                          | 1%nat => next
                          | _ => (start + of_nat i * delta)%f
                          end)
                (seq 0 (Z.to_nat (Qceiling q))))
    | NaN => Raise ValueError
    | PInf | NInf => Raise OverflowError
    end.

(* ================================================================== *)
(** * What the module takes from outside *)
(* ================================================================== *)

(** The routines of pandas and scipy that compute one statistic on one
    window, the constant [rplacem.var.FIGS_PATH], and the contents of
    the memory that [np.empty] hands out. *)
Class Libraries : Type := {
  FIGS_PATH : string;
  uninitialised : nat -> npfloat;
  (** the value [Rolling.var] gives for one window *)
  window_var : list npfloat -> npfloat;
  (** the value [Rolling.skew] gives for one window *)
  window_skew : list npfloat -> npfloat;
  (** [Series.autocorr()] *)
  autocorr : list npfloat -> npfloat;
  (** [scipy.stats.kendalltau(x, y, variant='c').statistic] *)
  kendalltau_c : list npfloat -> list npfloat -> npfloat
}.

(** [pd.Series(data)]; no data gives the empty Series. *)
Definition pd_Series (data : option (list npfloat)) : list npfloat :=
  match data with Some l => l | None => [] end.

(** pandas hands infinite samples to its window routines as [nan]. *)
Definition prep_values (x : list npfloat) : list npfloat :=
  map (fun v => if isinf v then NaN else v) x.

Definition count_finite (w : list npfloat) : Z :=
  Z.of_nat (length (filter isfinite w)).

(** The window of width [window] that ends at index [i], [i] included. *)
Definition window_at (window : Z) (x : list npfloat) (i : nat)
    : list npfloat :=
  py_slice x (Some (Z.max 0 (Z.of_nat i + 1 - window)))
             (Some (Z.of_nat i + 1)%Z).

(** [x.rolling(window=window, min_periods=min_periods)] followed by an
    aggregation or by [.apply(kernel)]: one output per index; the kernel
    sees the trailing window, and an index whose window holds fewer than
    [min_periods] finite samples gets [nan] without the kernel being
    called. pandas refuses a negative window and a window below
    [min_periods]. *)
Definition rolling (window min_periods : Z)
    (kernel : list npfloat -> npfloat) (x : list npfloat)
    : result (list npfloat) :=
  if (window <? 0)%Z then Raise ValueError
  else if (window <? min_periods)%Z then Raise ValueError
  else
    let values := prep_values x in
    Ok (map (fun i =>
               let w := window_at window values i in
               if (min_periods <=? count_finite w)%Z then kernel w else NaN)
            (seq 0 (length x))).

(** Modelled from the spec: [rplacem.utilities.divide_treatzero], which
    is not among the sources. The spec describes a safe division that
    substitutes a fixed fallback value where the denominator is zero and
    never raises. The two constants of the call are the fallbacks for a
    zero and for a non-zero numerator; [set_ratio_to_sw_average] passes
    the same value for both. It is applied to arrays of equal length. *)
Definition divide_treatzero {R : Rounding} (a b : list npfloat)
    (zero_zero nonzero_zero : npfloat) : list npfloat :=
  map2 (fun x y =>
          if (y == of_Z 0)%f
          then (if (x == of_Z 0)%f then zero_zero else nonzero_zero)
          else (x / y)%f)
       a b.

(** [posixpath.join] on two components *)
Definition path_join (path b : string) : string :=
  if String.prefix "/" b then b
  else if (String.eqb path "" || String.eqb
             (substring (String.length path - 1) 1 path) "/")%bool
       then (path ++ b)%string
       else (path ++ "/" ++ b)%string.

(* ================================================================== *)
(** * The object *)
(* ================================================================== *)

(** The attributes of a canvas-part statistics object that [__init__]
    reads. *)
Record CanvasPartStat : Type := {
  cp_id : string;
  cp_tmin : npfloat;
  cp_t_interval : npfloat;
  cp_sw_width : Z
}.

(** [val] is [None] for Python's [None]. The five attributes after it
    are [None] while unset: [__init__] sets them only when [val] is
    given. The derived sequences are [None] for Python's [None]. *)
Record TimeSeries : Type := {
  val : option (list npfloat);
  n_pts : option nat;
  tmin : option npfloat;
  t_interval : option npfloat;
  sw_width_mean : option Z;
  sw_width_ews : option Z;
  desc_long : string;
  desc_short : string;
  label : string;
  name : string;
  savename : string;
  t_pts : option (list npfloat);
  variance : option (list npfloat);
  autocorrelation : option (list npfloat);
  skewness : option (list npfloat);
  kendall_tau : option (list npfloat);
  ratio_to_sw_mean : option (list npfloat)
}.

Definition with_val (x : option (list npfloat)) (s : TimeSeries) : TimeSeries :=
  {| val := x; n_pts := n_pts s; tmin := tmin s; t_interval := t_interval s;
     sw_width_mean := sw_width_mean s; sw_width_ews := sw_width_ews s;
     desc_long := desc_long s; desc_short := desc_short s; label := label s;
     name := name s; savename := savename s; t_pts := t_pts s;
     variance := variance s; autocorrelation := autocorrelation s;
     skewness := skewness s; kendall_tau := kendall_tau s;
     ratio_to_sw_mean := ratio_to_sw_mean s |}.

Definition with_n_pts (x : option nat) (s : TimeSeries) : TimeSeries :=
  {| val := val s; n_pts := x; tmin := tmin s; t_interval := t_interval s;
     sw_width_mean := sw_width_mean s; sw_width_ews := sw_width_ews s;
     desc_long := desc_long s; desc_short := desc_short s; label := label s;
     name := name s; savename := savename s; t_pts := t_pts s;
     variance := variance s; autocorrelation := autocorrelation s;
     skewness := skewness s; kendall_tau := kendall_tau s;
     ratio_to_sw_mean := ratio_to_sw_mean s |}.

Definition with_tmin (x : option npfloat) (s : TimeSeries) : TimeSeries :=
  {| val := val s; n_pts := n_pts s; tmin := x; t_interval := t_interval s;
     sw_width_mean := sw_width_mean s; sw_width_ews := sw_width_ews s;
     desc_long := desc_long s; desc_short := desc_short s; label := label s;
     name := name s; savename := savename s; t_pts := t_pts s;
     variance := variance s; autocorrelation := autocorrelation s;
     skewness := skewness s; kendall_tau := kendall_tau s;
     ratio_to_sw_mean := ratio_to_sw_mean s |}.

Definition with_t_interval (x : option npfloat) (s : TimeSeries) : TimeSeries :=
  {| val := val s; n_pts := n_pts s; tmin := tmin s; t_interval := x;
     sw_width_mean := sw_width_mean s; sw_width_ews := sw_width_ews s;
     desc_long := desc_long s; desc_short := desc_short s; label := label s;
     name := name s; savename := savename s; t_pts := t_pts s;
     variance := variance s; autocorrelation := autocorrelation s;
     skewness := skewness s; kendall_tau := kendall_tau s;
     ratio_to_sw_mean := ratio_to_sw_mean s |}.

Definition with_sw_width_mean (x : option Z) (s : TimeSeries) : TimeSeries :=
  {| val := val s; n_pts := n_pts s; tmin := tmin s;
     t_interval := t_interval s; sw_width_mean := x;
     sw_width_ews := sw_width_ews s; desc_long := desc_long s;
     desc_short := desc_short s; label := label s; name := name s;
     savename := savename s; t_pts := t_pts s; variance := variance s;
     autocorrelation := autocorrelation s; skewness := skewness s;
     kendall_tau := kendall_tau s; ratio_to_sw_mean := ratio_to_sw_mean s |}.

Definition with_sw_width_ews (x : option Z) (s : TimeSeries) : TimeSeries :=
  {| val := val s; n_pts := n_pts s; tmin := tmin s;
     t_interval := t_interval s; sw_width_mean := sw_width_mean s;
     sw_width_ews := x; desc_long := desc_long s; desc_short := desc_short s;
     label := label s; name := name s; savename := savename s;
     t_pts := t_pts s; variance := variance s;
     autocorrelation := autocorrelation s; skewness := skewness s;
     kendall_tau := kendall_tau s; ratio_to_sw_mean := ratio_to_sw_mean s |}.

Definition with_desc_long (x : string) (s : TimeSeries) : TimeSeries :=
  {| val := val s; n_pts := n_pts s; tmin := tmin s;
     t_interval := t_interval s; sw_width_mean := sw_width_mean s;
     sw_width_ews := sw_width_ews s; desc_long := x;
     desc_short := desc_short s; label := label s; name := name s;
     savename := savename s; t_pts := t_pts s; variance := variance s;
     autocorrelation := autocorrelation s; skewness := skewness s;
     kendall_tau := kendall_tau s; ratio_to_sw_mean := ratio_to_sw_mean s |}.

Definition with_desc_short (x : string) (s : TimeSeries) : TimeSeries :=
  {| val := val s; n_pts := n_pts s; tmin := tmin s;
     t_interval := t_interval s; sw_width_mean := sw_width_mean s;
     sw_width_ews := sw_width_ews s; desc_long := desc_long s;
     desc_short := x; label := label s; name := name s;
     savename := savename s; t_pts := t_pts s; variance := variance s;
     autocorrelation := autocorrelation s; skewness := skewness s;
     kendall_tau := kendall_tau s; ratio_to_sw_mean := ratio_to_sw_mean s |}.

Definition with_label (x : string) (s : TimeSeries) : TimeSeries :=
  {| val := val s; n_pts := n_pts s; tmin := tmin s;
     t_interval := t_interval s; sw_width_mean := sw_width_mean s;
     sw_width_ews := sw_width_ews s; desc_long := desc_long s;
     desc_short := desc_short s; label := x; name := name s;
     savename := savename s; t_pts := t_pts s; variance := variance s;
     autocorrelation := autocorrelation s; skewness := skewness s;
     kendall_tau := kendall_tau s; ratio_to_sw_mean := ratio_to_sw_mean s |}.

Definition with_name (x : string) (s : TimeSeries) : TimeSeries :=
  {| val := val s; n_pts := n_pts s; tmin := tmin s;
     t_interval := t_interval s; sw_width_mean := sw_width_mean s;
     sw_width_ews := sw_width_ews s; desc_long := desc_long s;
     desc_short := desc_short s; label := label s; name := x;
     savename := savename s; t_pts := t_pts s; variance := variance s;
     autocorrelation := autocorrelation s; skewness := skewness s;
     kendall_tau := kendall_tau s; ratio_to_sw_mean := ratio_to_sw_mean s |}.

Definition with_savename (x : string) (s : TimeSeries) : TimeSeries :=
  {| val := val s; n_pts := n_pts s; tmin := tmin s;
     t_interval := t_interval s; sw_width_mean := sw_width_mean s;
     sw_width_ews := sw_width_ews s; desc_long := desc_long s;
     desc_short := desc_short s; label := label s; name := name s;
     savename := x; t_pts := t_pts s; variance := variance s;
     autocorrelation := autocorrelation s; skewness := skewness s;
     kendall_tau := kendall_tau s; ratio_to_sw_mean := ratio_to_sw_mean s |}.

Definition with_t_pts (x : option (list npfloat)) (s : TimeSeries) : TimeSeries :=
  {| val := val s; n_pts := n_pts s; tmin := tmin s;
     t_interval := t_interval s; sw_width_mean := sw_width_mean s;
     sw_width_ews := sw_width_ews s; desc_long := desc_long s;
     desc_short := desc_short s; label := label s; name := name s;
     savename := savename s; t_pts := x; variance := variance s;
     autocorrelation := autocorrelation s; skewness := skewness s;
     kendall_tau := kendall_tau s; ratio_to_sw_mean := ratio_to_sw_mean s |}.

Definition with_variance (x : option (list npfloat)) (s : TimeSeries) : TimeSeries :=
  {| val := val s; n_pts := n_pts s; tmin := tmin s;
     t_interval := t_interval s; sw_width_mean := sw_width_mean s;
     sw_width_ews := sw_width_ews s; desc_long := desc_long s;
     desc_short := desc_short s; label := label s; name := name s;
     savename := savename s; t_pts := t_pts s; variance := x;
     autocorrelation := autocorrelation s; skewness := skewness s;
     kendall_tau := kendall_tau s; ratio_to_sw_mean := ratio_to_sw_mean s |}.

Definition with_autocorrelation (x : option (list npfloat)) (s : TimeSeries) : TimeSeries :=
  {| val := val s; n_pts := n_pts s; tmin := tmin s;
     t_interval := t_interval s; sw_width_mean := sw_width_mean s;
     sw_width_ews := sw_width_ews s; desc_long := desc_long s;
     desc_short := desc_short s; label := label s; name := name s;
     savename := savename s; t_pts := t_pts s; variance := variance s;
     autocorrelation := x; skewness := skewness s;
     kendall_tau := kendall_tau s; ratio_to_sw_mean := ratio_to_sw_mean s |}.

Definition with_skewness (x : option (list npfloat)) (s : TimeSeries) : TimeSeries :=
  {| val := val s; n_pts := n_pts s; tmin := tmin s;
     t_interval := t_interval s; sw_width_mean := sw_width_mean s;
     sw_width_ews := sw_width_ews s; desc_long := desc_long s;
     desc_short := desc_short s; label := label s; name := name s;
     savename := savename s; t_pts := t_pts s; variance := variance s;
     autocorrelation := autocorrelation s; skewness := x;
     kendall_tau := kendall_tau s; ratio_to_sw_mean := ratio_to_sw_mean s |}.

Definition with_kendall_tau (x : option (list npfloat)) (s : TimeSeries) : TimeSeries :=
  {| val := val s; n_pts := n_pts s; tmin := tmin s;
     t_interval := t_interval s; sw_width_mean := sw_width_mean s;
     sw_width_ews := sw_width_ews s; desc_long := desc_long s;
     desc_short := desc_short s; label := label s; name := name s;
     savename := savename s; t_pts := t_pts s; variance := variance s;
     autocorrelation := autocorrelation s; skewness := skewness s;
     kendall_tau := x; ratio_to_sw_mean := ratio_to_sw_mean s |}.

Definition with_ratio_to_sw_mean (x : option (list npfloat)) (s : TimeSeries) : TimeSeries :=
  {| val := val s; n_pts := n_pts s; tmin := tmin s;
     t_interval := t_interval s; sw_width_mean := sw_width_mean s;
     sw_width_ews := sw_width_ews s; desc_long := desc_long s;
     desc_short := desc_short s; label := label s; name := name s;
     savename := savename s; t_pts := t_pts s; variance := variance s;
     autocorrelation := autocorrelation s; skewness := skewness s;
     kendall_tau := kendall_tau s; ratio_to_sw_mean := x |}.

(** The object as [__init__] receives it. *)
Definition new_object : TimeSeries :=
  {| val := None; n_pts := None; tmin := None; t_interval := None;
     sw_width_mean := None; sw_width_ews := None;
     desc_long := ""; desc_short := ""; label := ""; name := "";
     savename := ""; t_pts := None; variance := None;
     autocorrelation := None; skewness := None; kendall_tau := None;
     ratio_to_sw_mean := None |}.

(** A method: it runs on the object, returns or raises, and leaves the
    object as it is at that point. *)
Definition Py (A : Type) : Type := TimeSeries -> result A * TimeSeries.

Definition ret {A : Type} (a : A) : Py A := fun s => (Ok a, s).

Definition raise {A : Type} (e : exn) : Py A := fun s => (Raise e, s).

Definition bind {A B : Type} (c : Py A) (k : A -> Py B) : Py B :=
  fun s =>
    match c s with
    | (Ok a, s') => k a s'
    | (Raise e, s') => (Raise e, s')
    end.

(** A pure step that may raise. *)
Definition lift {A : Type} (r : result A) : Py A := fun s => (r, s).

(** [self.a] for an attribute that is always set *)
Definition read {A : Type} (a : TimeSeries -> A) : Py A :=
  fun s => (Ok (a s), s).

(** [self.a] for an attribute that may be unset *)
Definition attr {A : Type} (a : TimeSeries -> option A) : Py A :=
  fun s =>
    match a s with
    | Some v => (Ok v, s)
    | None => (Raise AttributeError, s)
    end.

(** [self.a = x] *)
Definition assign (upd : TimeSeries -> TimeSeries) : Py unit :=
  fun s => (Ok tt, upd s).

Declare Scope py_scope.
Delimit Scope py_scope with py.

Notation "x <- c ;; k" := (bind c (fun x => k))
  (at level 100, c at next level, right associativity) : py_scope.
Notation "c ;; k" := (bind c (fun _ => k))
  (at level 100, right associativity) : py_scope.

Definition is_None {A : Type} (o : option A) : bool :=
  match o with None => true | Some _ => false end.

(* ================================================================== *)
(** * The methods of [TimeSeries] *)
(* ================================================================== *)

Section Methods.

Context {R : Rounding} {L : Libraries}.

Local Open Scope py_scope.

(** [np.empty(n)] *)
Definition np_empty (n : nat) : list npfloat := map uninitialised (seq 0 n).

(** [exists]: [np.any(self.val is not None)] *)
Definition exists_ : Py bool :=
  v <- read val ;;
  ret (negb (is_None v)).

(** The sliding mean of [set_ratio_to_sw_average], from [np.empty] to
    the last slice assignment. *)
Definition mean_sliding_of (n_pts : nat) (sw : Z) (val : list npfloat)
    : result (list npfloat) :=
  (let mean_sliding := np_empty n_pts in
   let cumul_sum := np_cumsum val in
   let* v0 := getitem val 0 in
   let* mean_sliding := setitem mean_sliding 0 v0 in
   let rest := Z.of_nat (length (py_slice mean_sliding (Some 1%Z) None)) in
   let* head :=
     broadcast2 fdiv
       (py_slice cumul_sum (Some 0%Z) (Some (Z.min sw rest)))
       (map of_Z (np_arange_int 1 (Z.min (rest + 1) (sw + 1)))) in
   let* mean_sliding :=
     setslice mean_sliding (Some 1%Z) (Some (sw + 1)%Z) head in
   let* diff :=
     broadcast2 fsub
       (py_slice cumul_sum (Some sw) (Some (-1)%Z))
       (py_slice cumul_sum None (Some (- sw - 1)%Z)) in
   let* mean_sliding :=
     setslice mean_sliding (Some (sw + 1)%Z) None
       (map (fun d => (d / of_Z sw)%f) diff) in
   Ok mean_sliding)%result.

Definition set_ratio_to_sw_average (rerun : bool) : Py unit :=
  cached <- read ratio_to_sw_mean ;;
  if (is_None cached || rerun)%bool then
    n <- attr n_pts ;;
    sw <- attr sw_width_mean ;;
    v <- read val ;;
    v <- lift (match v with Some l => Ok l | None => Raise TypeError end) ;;
    mean_sliding <- lift (mean_sliding_of n sw v) ;;
    lbl <- read label ;;
    if String.eqb (substring 0 6 lbl) "autoco" then
      r <- lift (broadcast2 fsub v mean_sliding) ;;
      assign (with_ratio_to_sw_mean (Some r))
    else
      assign (with_ratio_to_sw_mean
                (Some (divide_treatzero v mean_sliding (of_Z 1) (of_Z 1))))
  else ret tt.

Definition set_t_pts : Py unit :=
  start <- attr tmin ;;
  t0 <- attr tmin ;;
  n <- attr n_pts ;;
  dt <- attr t_interval ;;
  step <- attr t_interval ;;
  pts <- lift (np_arange start (t0 + of_nat n * dt - eps_1e_4)%f step) ;;
  assign (with_t_pts (Some pts)).

Definition set_variance : Py unit :=
  v <- read val ;;
  let x := pd_Series v in
  w <- attr sw_width_ews ;;
  r <- lift (rolling w 1 window_var x) ;;
  assign (with_variance (Some r)).

(** [x = pd.Series(x)] reads the local [x] before anything is bound to
    it. *)
Definition set_skewness : Py unit :=
  x <- raise (A := list npfloat) UnboundLocalError ;;
  let x := pd_Series (Some x) in
  w <- attr sw_width_ews ;;
  r <- lift (rolling w 1 window_skew x) ;;
  assign (with_skewness (Some r)).

Definition set_autocorrelation : Py unit :=
  v <- read val ;;
  let x := pd_Series v in
  w <- attr sw_width_ews ;;
  r <- lift (rolling w 1 autocorr x) ;;
  assign (with_autocorrelation (Some r)).

(** [calc_kendall_tau]: the module-level function *)
Definition calc_kendall_tau (variable : list npfloat) : npfloat :=
  let x := map of_nat (seq 0 (length variable)) in
  let y := variable in
  let res := kendalltau_c x y in
  if isnan res then of_Z 0 else res.

Definition set_kendall_tau (rerun : bool) : Py unit :=
  e <- exists_ ;;
  cached <- read kendall_tau ;;
  if (e && (is_None cached || rerun))%bool then
    v <- read val ;;
    let x := pd_Series v in
    w <- attr sw_width_ews ;;
    r <- lift (rolling w 1 calc_kendall_tau x) ;;
    assign (with_kendall_tau (Some r))
  else ret tt.

Definition set_all_vars : Py unit :=
  set_t_pts ;;
  set_ratio_to_sw_average false ;;
  set_variance ;;
  set_autocorrelation ;;
  set_skewness ;;
  set_kendall_tau false.

(** [TimeSeries.__init__], run on [new_object]; the arguments come in
    the order of the signature. *)
Definition __init__ (val0 : option (list npfloat))
    (cpstat : option CanvasPartStat) (t_interval0 tmin0 : npfloat)
    (sw_width_mean0 sw_width_ews0 : Z)
    (desc_long0 desc_short0 name0 savename0 label0 : string)
    (record_all : bool) : Py unit :=
  assign (with_val val0) ;;
  e <- exists_ ;;
  (if e then
     assign (with_n_pts (Some (length (pd_Series val0)))) ;;
     match cpstat with
     | None =>
         assign (with_tmin (Some tmin0)) ;;
         assign (with_t_interval (Some t_interval0)) ;;
         assign (with_sw_width_mean (Some sw_width_mean0))
     | Some c =>
         assign (with_tmin (Some (cp_tmin c))) ;;
         assign (with_t_interval (Some (cp_t_interval c))) ;;
         assign (with_sw_width_mean (Some (cp_sw_width c)))
     end ;;
     assign (with_sw_width_ews (Some sw_width_ews0))
   else ret tt) ;;
  assign (with_desc_long desc_long0) ;;
  assign (with_desc_short desc_short0) ;;
  assign (with_label label0) ;;
  assign (with_name name0) ;;
  path <- (if negb (String.eqb savename0 "") then
             match cpstat with
             | Some c =>
                 ret (path_join (path_join FIGS_PATH (cp_id c))
                                (savename0 ++ ".png"))
             | None => raise AttributeError
             end
           else ret ""%string) ;;
  assign (with_savename path) ;;
  assign (with_t_pts None) ;;
  assign (with_variance None) ;;
  assign (with_autocorrelation None) ;;
  assign (with_skewness None) ;;
  assign (with_kendall_tau None) ;;
  assign (with_ratio_to_sw_mean None) ;;
  if record_all then set_all_vars else ret tt.

(** The setters as a caller names them, with the keyword [rerun] given
    or not. Passing [rerun] to a method whose signature has no such
    parameter is a [TypeError]. *)
Inductive setter : Type :=
| Set_t_pts
| Set_ratio_to_sw_average
| Set_variance
| Set_skewness
| Set_autocorrelation
| Set_kendall_tau.

Definition call (m : setter) (rerun : option bool) : Py unit :=
  match m, rerun with
  | Set_ratio_to_sw_average, Some r => set_ratio_to_sw_average r
  | Set_ratio_to_sw_average, None => set_ratio_to_sw_average false
  | Set_kendall_tau, Some r => set_kendall_tau r
  | Set_kendall_tau, None => set_kendall_tau false
  | Set_t_pts, None => set_t_pts
  | Set_variance, None => set_variance
  | Set_skewness, None => set_skewness
  | Set_autocorrelation, None => set_autocorrelation
  | _, Some _ => raise TypeError
  end.

(** The cached field a setter writes. *)
Definition field_of (m : setter) : TimeSeries -> option (list npfloat) :=
  match m with
  | Set_t_pts => t_pts
  | Set_ratio_to_sw_average => ratio_to_sw_mean
  | Set_variance => variance
  | Set_skewness => skewness
  | Set_autocorrelation => autocorrelation
  | Set_kendall_tau => kendall_tau
  end.

End Methods.

(* ================================================================== *)
(** * Plotting *)
(* ================================================================== *)

(** The arguments of one call of [rplacem.plot_utilities.draw_1d], in
    the order in which [plot1d] passes them. *)
Record Draw1d : Type := {
  d_x : list npfloat;
  d_y : list npfloat;
  d_xlab : string;
  d_ylab : string;
  d_xlog : bool;
  d_xmin : npfloat;
  d_ylog : bool;
  d_ymin : option npfloat;
  d_ymax : option npfloat;
  d_hline : option npfloat;
  d_vline : option npfloat;
  d_save : string
}.

Section Plot.

Context {R : Rounding} {L : Libraries}.

Local Open Scope py_scope.

(** [plot1d] renders through [draw_1d] and returns nothing; the value
    here is the call that it makes. Slicing [None] is a [TypeError]. *)
Definition plot1d (xlog ylog : bool) (ymin ymax : option npfloat)
    (save : bool) (hline vline : option npfloat)
    (ibeg_remove iend_remove : Z) : Py Draw1d :=
  cached <- read t_pts ;;
  (if is_None cached then set_t_pts else ret tt) ;;
  n <- attr n_pts ;;
  let iend := (Z.of_nat n - iend_remove)%Z in
  t <- read t_pts ;;
  t <- lift (match t with Some l => Ok l | None => Raise TypeError end) ;;
  v <- read val ;;
  v <- lift (match v with Some l => Ok l | None => Raise TypeError end) ;;
  ylab <- read desc_short ;;
  x0 <- attr tmin ;;
  path <- (if save then read savename else ret ""%string) ;;
  ret {| d_x := py_slice t (Some ibeg_remove) (Some iend);
         d_y := py_slice v (Some ibeg_remove) (Some iend);
         d_xlab := "Time [s]";
         d_ylab := ylab;
         d_xlog := xlog;
         d_xmin := x0;
         d_ylog := ylog;
         d_ymin := ymin;
         d_ymax := ymax;
         d_hline := hline;
         d_vline := vline;
         d_save := path |}.

End Plot.

(** The update that a setter makes to its cached field. *)
Definition with_field (m : setter) (x : option (list npfloat))
    : TimeSeries -> TimeSeries :=
  match m with
  | Set_t_pts => with_t_pts x
  | Set_ratio_to_sw_average => with_ratio_to_sw_mean x
  | Set_variance => with_variance x
  | Set_skewness => with_skewness x
  | Set_autocorrelation => with_autocorrelation x
  | Set_kendall_tau => with_kendall_tau x
  end.

(* ================================================================== *)
(** * The windows of the specification *)
(* ================================================================== *)

Definition Qc_sum (l : list Qc) : Qc := fold_right Qcplus 0%Qc l.

Definition Qc_of_nat (n : nat) : Qc := Q2Qc (inject_Z (Z.of_nat n)).

(** The arithmetic mean of a non-empty list of reals. *)
Definition arithmetic_mean (l : list Qc) : Qc :=
  (Qc_sum l / Qc_of_nat (length l))%Qc.




(** Whether the label marks an autocorrelation-type variable:
    [self.label[0:6] == 'autoco']. *)
Definition autoco_label (lbl : string) : bool :=
  String.eqb (substring 0 6 lbl) "autoco".

(* ================================================================== *)
(** * A reference instance of the libraries *)
(* ================================================================== *)

(** The instance serves to run the methods on concrete series. The
    variance and Kendall's tau-c are rational and are given unrounded.
    Skewness and autocorrelation are irrational in general; the instance
    leaves them undefined, and nothing below depends on their value. *)

Definition finite_part (w : list npfloat) : list Qc :=
  flat_map (fun x => match x with Fin q => [q] | _ => [] end) w.

(** Unbiased sample variance of the finite samples of the window;
    undefined for fewer than two. *)
Definition sample_variance (w : list npfloat) : npfloat :=
  let obs := finite_part w in
  let k := length obs in
  if (k <=? 1)%nat then NaN
  else
    let m := arithmetic_mean obs in
    Fin (Qc_sum (map (fun x => ((x - m) * (x - m))%Qc) obs)
         / Qc_of_nat (k - 1))%Qc.

Definition sign_between (a b : npfloat) : Z :=
  if fltb a b then 1%Z else if fltb b a then (-1)%Z else 0%Z.

(** Concordant minus discordant pairs. *)
Fixpoint con_minus_dis (x y : list npfloat) : Z :=
  match x, y with
  | xi :: x', yi :: y' =>
      (fold_right Z.add 0
         (map2 (fun xj yj => sign_between xi xj * sign_between yi yj) x' y')
       + con_minus_dis x' y')%Z
  | _, _ => 0%Z
  end.

Fixpoint distinct (l : list npfloat) : list npfloat :=
  match l with
  | [] => []
  | a :: t => if existsb (feqb a) t then distinct t else a :: distinct t
  end.

(** Kendall's tau-c: [2 (C - D) / (n^2 (m - 1) / m)] with [m] the
    smaller number of distinct values; undefined on an empty sample, on
    a sample with [nan], and when one variable is constant. *)
Definition tau_c (x y : list npfloat) : npfloat :=
  let n := length x in
  if ((n =? 0)%nat || existsb isnan x || existsb isnan y)%bool then NaN
  else
    let m := Nat.min (length (distinct x)) (length (distinct y)) in
    if (m <=? 1)%nat then NaN
    else
      Fin (Q2Qc (inject_Z (2 * con_minus_dis x y))
           / (Qc_of_nat (n * n) * Qc_of_nat (m - 1) / Qc_of_nat m))%Qc.

#[export] Instance reference_libs : Libraries := {
  FIGS_PATH := "figs";
  uninitialised := fun _ => NaN;
  window_var := sample_variance;
  window_skew := fun _ => NaN;
  autocorr := fun _ => NaN;
  kendalltau_c := tau_c
}.

(** The same libraries with zero-filled fresh memory. *)
Definition zero_filled_libs : Libraries := {|
  FIGS_PATH := "figs";
  uninitialised := fun _ => of_Z 0;
  window_var := sample_variance;
  window_skew := fun _ => NaN;
  autocorr := fun _ => NaN;
  kendalltau_c := tau_c
|}.

(** ** Concrete series *)

Definition reals (l : list Z) : list npfloat := map of_Z l.

(** [TimeSeries(val=v, t_interval=dt, tmin=0, sw_width_mean=swm,
    sw_width_ews=swe, label=lbl)] *)
Definition make_series (v : option (list npfloat)) (dt : npfloat)
    (swm swe : Z) (lbl : string) : TimeSeries :=
  snd (__init__ v None dt (of_Z 0) swm swe "" "" "" "" lbl false new_object).


Definition sample_val : list npfloat := reals [1; 2; 4; 7; 11; 16]%Z.

Definition sample_series : TimeSeries :=
  make_series (Some sample_val) (of_Z 300) 2 3 "".


Definition absent_series : TimeSeries :=
  make_series None (of_Z 300) 40 10 "".

Definition empty_series : TimeSeries :=
  make_series (Some []) (of_Z 300) 40 10 "".

(** The float of a decimal literal: the double nearest to it. *)
Definition literal (q : Q) : npfloat := round_binary64 (Q2Qc q).

(** Five samples every [1e-5] seconds. *)
Definition fast_series : TimeSeries :=
  make_series (Some (reals [1; 2; 3; 4; 5]%Z)) (literal (1 # 100000))
    40 10 "".

(** Five samples every [2 ** -10] seconds from [tmin = 2 ** 44] on:
    [TimeSeries(val=v, tmin=2.**44, t_interval=2.**-10)]. *)
Definition far_series : TimeSeries :=
  snd (__init__ (Some (reals [1; 2; 3; 4; 5]%Z)) None
         (literal (1 # 1024)) (of_Z (2 ^ 44)) 40 10 "" "" "" "" "" false
         new_object).

(** Five samples every 300 seconds. *)
Definition five_series : TimeSeries :=
  make_series (Some (reals [1; 2; 3; 4; 5]%Z)) (of_Z 300) 40 10 "".






(** A [nan] first sample: [val = [nan, 1, 2]]. *)
Definition nan_series : TimeSeries :=
  make_series (Some [NaN; of_Z 1; of_Z 2]) (of_Z 300) 2 2 "".

(** Three samples every [0.1] seconds. *)
Definition tenth_spaced_series : TimeSeries :=
  make_series (Some (reals [1; 2; 3]%Z)) (literal (1 # 10)) 40 10 "".

(** Four samples equal to [0.1]. *)
Definition tenth_series : TimeSeries :=
  make_series (Some (repeat (literal (1 # 10)) 4)) (of_Z 300) 3 3 "".

(** A canvas part. *)
Definition sample_cpstat : CanvasPartStat :=
  {| cp_id := "12"; cp_tmin := of_Z 0; cp_t_interval := of_Z 300;
     cp_sw_width := 40 |}.

(** Boolean equality, to compare computed arrays. *)
Definition npfloat_eqb (x y : npfloat) : bool :=
  match x, y with
  | Fin a, Fin b => Qc_eq_bool a b
  | PInf, PInf | NInf, NInf | NaN, NaN => true
  | _, _ => false
  end.

Fixpoint array_eqb (a b : list npfloat) : bool :=
  match a, b with
  | [], [] => true
  | x :: a', y :: b' => npfloat_eqb x y && array_eqb a' b'
  | _, _ => false
  end.


Definition result_array_eqb (r : result (list npfloat)) (l : list npfloat)
    : bool :=
  match r with
  | Ok a => array_eqb a l
  | Raise _ => false
  end.

(* ================================================================== *)
(** * Properties *)
(* ================================================================== *)

(** ** Numbers *)


Lemma Qc_eq_bool_refl (x : Qc) : Qc_eq_bool x x = true.
Proof. unfold Qc_eq_bool. now destruct (Qc_eq_dec x x). Qed.




(** ** Slices and arrays *)

Lemma clip_bound_range (len i : Z) :
  (0 <= len)%Z -> (0 <= clip_bound len i <= len)%Z.
Proof. unfold clip_bound. destruct (Z.ltb_spec i 0); lia. Qed.

Lemma slice_start_range (len : Z) (a : option Z) :
  (0 <= len)%Z -> (0 <= slice_start len a <= len)%Z.
Proof. destruct a; cbn; [apply clip_bound_range | lia]. Qed.

Lemma slice_stop_range (len : Z) (b : option Z) :
  (0 <= len)%Z -> (0 <= slice_stop len b <= len)%Z.
Proof. destruct b; cbn; [apply clip_bound_range | lia]. Qed.

Ltac slice_bounds :=
  cbn [slice_start slice_stop]; unfold clip_bound;
  repeat match goal with
         | |- context [Z.ltb ?a ?b] => destruct (Z.ltb_spec a b)
         end;
  cbn [length] in *; try lia.

Lemma py_slice_eq {A : Type} (l : list A) (start stop : option Z) (a k : nat) :
  Z.to_nat (slice_start (Z.of_nat (length l)) start) = a ->
  Z.to_nat (slice_stop (Z.of_nat (length l)) stop
            - slice_start (Z.of_nat (length l)) start) = k ->
  py_slice l start stop = firstn k (skipn a l).
Proof. intros <- <-. reflexivity. Qed.

Lemma py_slice_length {A : Type} (l : list A) (start stop : option Z) :
  length (py_slice l start stop)
  = Z.to_nat (slice_stop (Z.of_nat (length l)) stop
              - slice_start (Z.of_nat (length l)) start).
Proof.
  unfold py_slice. rewrite length_firstn, length_skipn.
  pose proof (slice_start_range start (Nat2Z.is_nonneg (length l))).
  pose proof (slice_stop_range stop (Nat2Z.is_nonneg (length l))).
  lia.
Qed.

Lemma setslice_eq {A : Type} (dst : list A) (start stop : option Z)
    (src : list A) (a : nat) :
  Z.to_nat (slice_start (Z.of_nat (length dst)) start) = a ->
  Z.to_nat (slice_stop (Z.of_nat (length dst)) stop
            - slice_start (Z.of_nat (length dst)) start) = length src ->
  setslice dst start stop src
  = Ok (firstn a dst ++ src ++ skipn (a + length src) dst).
Proof.
  intros <- Hk. unfold setslice. rewrite Hk, Nat.eqb_refl. reflexivity.
Qed.

Lemma map2_length {A B C : Type} (f : A -> B -> C) (a : list A) (b : list B) :
  length (map2 f a b) = Nat.min (length a) (length b).
Proof.
  revert b. induction a as [|x a IH]; intros [|y b]; cbn; auto.
Qed.


Lemma broadcast2_eq (f : npfloat -> npfloat -> npfloat) (a b : list npfloat) :
  length a = length b -> broadcast2 f a b = Ok (map2 f a b).
Proof. intros H. unfold broadcast2. now rewrite H, Nat.eqb_refl. Qed.

Lemma cumsum_from_length {R : Rounding} (acc : npfloat) (l : list npfloat) :
  length (cumsum_from acc l) = length l.
Proof. revert acc. induction l; intros; cbn; auto. Qed.

Lemma np_cumsum_length {R : Rounding} (l : list npfloat) :
  length (np_cumsum l) = length l.
Proof. destruct l; cbn; [|rewrite cumsum_from_length]; reflexivity. Qed.

Lemma np_arange_int_length (a b : Z) :
  length (np_arange_int a b) = Z.to_nat (b - a).
Proof. unfold np_arange_int. now rewrite length_map, length_seq. Qed.


(** ** Comparing computed arrays *)

Lemma npfloat_eqb_eq (x y : npfloat) : npfloat_eqb x y = true <-> x = y.
Proof.
  split.
  - destruct x, y; cbn; try discriminate; try reflexivity.
    intros H. f_equal. now apply Qc_eq_bool_correct.
  - intros <-. destruct x; cbn; auto using Qc_eq_bool_refl.
Qed.

(** The constant of [set_t_pts] is the double that the literal [1e-4]
    denotes. *)
Lemma eps_1e_4_literal : eps_1e_4 = literal (1 # 10000).
Proof. apply npfloat_eqb_eq. vm_compute. reflexivity. Qed.

Lemma array_eqb_eq (a b : list npfloat) : array_eqb a b = true <-> a = b.
Proof.
  revert b. induction a as [|x a IH]; intros [|y b]; cbn; split;
    try discriminate; try reflexivity.
  - intros H. apply andb_true_iff in H as [H1 H2].
    apply npfloat_eqb_eq in H1. apply IH in H2. congruence.
  - intros H. injection H as -> ->. apply andb_true_iff. split.
    + now apply npfloat_eqb_eq.
    + now apply IH.
Qed.



Lemma result_array_eqb_eq (r : result (list npfloat)) (l : list npfloat) :
  result_array_eqb r l = true -> r = Ok l.
Proof.
  destruct r as [a|e]; cbn; [|discriminate].
  intros H. f_equal. now apply array_eqb_eq.
Qed.


Ltac py_unfold :=
  unfold exists_ in *;
  unfold bind, read, attr, assign, lift, ret, raise in *;
  cbn beta in *.

Section Theory.

Context {R : Rounding} {L : Libraries}.

(** ** The sliding mean *)

Lemma mean_sliding_of_eq (sw : Z) (v0 : npfloat) (vt : list npfloat) :
  (0 < sw)%Z ->
  let cs := np_cumsum (v0 :: vt) in
  let k1 := Nat.min (Z.to_nat sw) (length vt) in
  let k2 := (length vt - Z.to_nat sw)%nat in
  mean_sliding_of (S (length vt)) sw (v0 :: vt)
  = Ok (v0 :: map2 fdiv (firstn k1 cs)
                   (map of_Z (np_arange_int 1 (Z.of_nat k1 + 1)))
           ++ map (fun d => (d / of_Z sw)%f)
                  (map2 fsub (firstn k2 (skipn (Z.to_nat sw) cs))
                             (firstn k2 cs))).
Proof.
  intros Hsw cs k1 k2.
  assert (Hcs : length cs = S (length vt)) by (unfold cs; now rewrite np_cumsum_length).
  unfold mean_sliding_of.
  cbn [getitem nth_error rbind].
  unfold setitem, np_empty. cbn [seq map length replace_nth Nat.ltb Nat.leb rbind].
  set (junk := map uninitialised (seq 1 (length vt))).
  assert (Hjunk : length junk = length vt) by (unfold junk; now rewrite length_map, length_seq).
  fold cs.
  rewrite py_slice_length. cbn [length].
  match goal with
  | |- context [Z.of_nat (Z.to_nat ?e)] =>
      replace (Z.of_nat (Z.to_nat e)) with (Z.of_nat (length vt))
        by (rewrite Hjunk; slice_bounds)
  end.
  replace (Z.min (Z.of_nat (length vt) + 1) (sw + 1)) with (Z.of_nat k1 + 1)%Z
    by (unfold k1; lia).
  rewrite (py_slice_eq cs (Some 0%Z) (Some (Z.min sw (Z.of_nat (length vt))))
             (a := 0) (k := k1))
    by (rewrite Hcs; unfold k1; slice_bounds).
  cbn [skipn].
  set (head := map2 fdiv _ _).
  assert (Hhead : length head = k1).
  { unfold head. rewrite map2_length, length_firstn, length_map,
      np_arange_int_length, Hcs. unfold k1. lia. }
  rewrite broadcast2_eq
    by (rewrite length_firstn, length_map, np_arange_int_length, Hcs;
        unfold k1; lia).
  fold head. cbn [rbind].
  rewrite (setslice_eq (v0 :: junk) (Some 1%Z) (Some (sw + 1)%Z) head (a := 1))
    by (rewrite ?Hhead; cbn [length]; rewrite Hjunk; unfold k1; slice_bounds).
  cbn [rbind firstn app].
  rewrite (py_slice_eq cs (Some sw) (Some (-1)%Z)
             (a := Nat.min (Z.to_nat sw) (S (length vt))) (k := k2))
    by (rewrite Hcs; unfold k2; slice_bounds).
  rewrite (py_slice_eq cs None (Some (- sw - 1)%Z) (a := 0) (k := k2))
    by (rewrite Hcs; unfold k2; slice_bounds).
  cbn [skipn].
  assert (Hskip : firstn k2 (skipn (Nat.min (Z.to_nat sw) (S (length vt))) cs)
                  = firstn k2 (skipn (Z.to_nat sw) cs)).
  { destruct (Nat.le_gt_cases (Z.to_nat sw) (S (length vt))) as [Hle|Hgt].
    - now rewrite Nat.min_l.
    - replace k2 with 0%nat by (unfold k2; lia). reflexivity. }
  rewrite Hskip.
  set (diff := map2 fsub _ _).
  assert (Hdiff : length diff = k2).
  { unfold diff. rewrite map2_length, !length_firstn, length_skipn, Hcs.
    unfold k2. lia. }
  rewrite broadcast2_eq
    by (rewrite !length_firstn, length_skipn, Hcs; unfold k2; lia).
  fold diff. cbn [rbind].
  rewrite (setslice_eq (v0 :: head ++ skipn (1 + length head) (v0 :: junk))
             (Some (sw + 1)%Z) None (map (fun d => (d / of_Z sw)%f) diff)
             (a := S k1)).
  - cbn [rbind]. f_equal.
    rewrite length_map, Hdiff.
    cbn [firstn].
    rewrite firstn_app, Hhead, Nat.sub_diag, firstn_all2 by lia.
    cbn [firstn]. rewrite app_nil_r. cbn [app]. do 3 f_equal.
    rewrite skipn_all2; [now rewrite app_nil_r|].
    cbn [length]. rewrite length_app, length_skipn. cbn [length].
    rewrite Hhead, Hjunk. unfold k1, k2. lia.
  - cbn [length]. rewrite length_app, length_skipn. cbn [length].
    rewrite Hhead, Hjunk. unfold k1. slice_bounds.
  - cbn [length]. rewrite length_app, length_skipn, length_map. cbn [length].
    rewrite Hhead, Hjunk, Hdiff. unfold k1, k2. slice_bounds.
Qed.





(** ** Running sums and trailing windows *)





(** ** Running the setters on a populated object *)

Lemma set_ratio_run (s : TimeSeries) (v ms : list npfloat) (sw : Z)
    (rerun : bool) :
  val s = Some v -> n_pts s = Some (length v) -> sw_width_mean s = Some sw ->
  (is_None (ratio_to_sw_mean s) || rerun)%bool = true ->
  mean_sliding_of (length v) sw v = Ok ms -> length ms = length v ->
  set_ratio_to_sw_average rerun s
  = (Ok tt,
     with_ratio_to_sw_mean
       (Some (if autoco_label (label s) then map2 fsub v ms
              else divide_treatzero v ms (of_Z 1) (of_Z 1))) s).
Proof.
  intros Hv Hn Hsw Hrun Hms Hlen.
  unfold set_ratio_to_sw_average. py_unfold.
  rewrite Hrun, Hn, Hsw, Hv, Hms. unfold autoco_label.
  destruct (String.eqb (substring 0 6 (label s)) "autoco").
  - rewrite broadcast2_eq by congruence. reflexivity.
  - reflexivity.
Qed.



Lemma rolling_ok (w : Z) (k : list npfloat -> npfloat) (x : list npfloat) :
  (1 <= w)%Z ->
  exists r, rolling w 1 k x = Ok r /\ length r = length x.
Proof.
  intros Hw. unfold rolling.
  destruct (Z.ltb_spec w 0); [lia|]. destruct (Z.ltb_spec w 1); [lia|].
  eexists. split; [reflexivity|]. now rewrite length_map, length_seq.
Qed.

Lemma set_variance_run (s : TimeSeries) (w : Z) (r : list npfloat) :
  sw_width_ews s = Some w ->
  rolling w 1 window_var (pd_Series (val s)) = Ok r ->
  set_variance s = (Ok tt, with_variance (Some r) s).
Proof.
  intros Hw Hr. unfold set_variance. py_unfold. now rewrite Hw, Hr.
Qed.

Lemma set_autocorrelation_run (s : TimeSeries) (w : Z) (r : list npfloat) :
  sw_width_ews s = Some w ->
  rolling w 1 autocorr (pd_Series (val s)) = Ok r ->
  set_autocorrelation s = (Ok tt, with_autocorrelation (Some r) s).
Proof.
  intros Hw Hr. unfold set_autocorrelation. py_unfold. now rewrite Hw, Hr.
Qed.

Lemma set_kendall_tau_run (s : TimeSeries) (v : list npfloat) (w : Z)
    (r : list npfloat) (rerun : bool) :
  val s = Some v -> sw_width_ews s = Some w ->
  (is_None (kendall_tau s) || rerun)%bool = true ->
  rolling w 1 calc_kendall_tau v = Ok r ->
  set_kendall_tau rerun s = (Ok tt, with_kendall_tau (Some r) s).
Proof.
  intros Hv Hw Hrun Hr. unfold set_kendall_tau. py_unfold.
  rewrite Hv, Hrun. cbn [negb is_None andb pd_Series]. rewrite Hw, Hv. cbn [pd_Series]. now rewrite Hr.
Qed.

Lemma set_skewness_unbound (s : TimeSeries) :
  set_skewness s = (Raise UnboundLocalError, s).
Proof. reflexivity. Qed.

(** ** Rolling windows *)

Lemma window_at_map (f : npfloat -> npfloat) (w : Z) (x : list npfloat)
    (i : nat) :
  window_at w (map f x) i = map f (window_at w x i).
Proof.
  unfold window_at, py_slice. rewrite length_map.
  now rewrite skipn_map, firstn_map.
Qed.

Lemma count_finite_lt_1 (w : list npfloat) :
  (1 <=? count_finite w)%Z = existsb isfinite w.
Proof.
  unfold count_finite. induction w as [|x w IH]; [reflexivity|].
  cbn [filter existsb]. destruct (isfinite x); cbn [orb length].
  - destruct (Z.leb_spec 1 (Z.of_nat (S (length (filter isfinite w)))));
      [reflexivity | lia].
  - exact IH.
Qed.

Lemma rolling_nth (w : Z) (k : list npfloat -> npfloat)
    (x r : list npfloat) (i : nat) (y : npfloat) :
  (1 <= w)%Z -> rolling w 1 k x = Ok r -> nth_error r i = Some y ->
  y = if existsb isfinite (window_at w x i)
      then k (window_at w (prep_values x) i) else NaN.
Proof.
  intros Hw Hr Hy. unfold rolling in Hr.
  destruct (Z.ltb_spec w 0); [lia|]. destruct (Z.ltb_spec w 1); [lia|].
  injection Hr as <-.
  rewrite nth_error_map in Hy.
  destruct (nth_error (seq 0 (length x)) i) as [j|] eqn:Hj; [|discriminate].
  apply nth_error_In in Hj as Hin.
  assert (j = i).
  { rewrite nth_error_seq in Hj.
    destruct (Nat.ltb i (length x)); [|discriminate].
    cbn in Hj. congruence. }
  subst j. cbn in Hy. injection Hy as <-.
  rewrite count_finite_lt_1.
  unfold prep_values at 1. rewrite window_at_map.
  replace (existsb isfinite (map _ (window_at w x i)))
    with (existsb isfinite (window_at w x i)); [reflexivity|].
  induction (window_at w x i) as [|a l IH]; [reflexivity|].
  cbn [map existsb]. rewrite IH. now destruct a.
Qed.

Lemma window_at_has_sample (w : Z) (x : list npfloat) (i : nat) (y : npfloat) :
  (1 <= w)%Z -> nth_error x i = Some y -> In y (window_at w x i).
Proof.
  intros Hw Hy.
  assert (Hi : (i < length x)%nat) by (apply nth_error_Some; congruence).
  unfold window_at.
  set (a := Z.max 0 (Z.of_nat i + 1 - w)).
  rewrite (py_slice_eq x (Some a) (Some (Z.of_nat i + 1)%Z)
             (a := Z.to_nat a) (k := (S i - Z.to_nat a)%nat))
    by (unfold a; slice_bounds).
  apply (nth_error_In _ (i - Z.to_nat a)).
  rewrite nth_error_firstn, nth_error_skipn.
  destruct (Nat.ltb_spec (i - Z.to_nat a) (S i - Z.to_nat a));
    [|unfold a in *; lia].
  rewrite <- Hy. f_equal. unfold a. lia.
Qed.

Lemma calc_kendall_tau_not_nan (w : list npfloat) :
  isnan (calc_kendall_tau w) = false.
Proof.
  unfold calc_kendall_tau.
  destruct (isnan (kendalltau_c _ w)) eqn:E; [reflexivity | exact E].
Qed.

(** ** The time axis *)

Lemma set_t_pts_run (s : TimeSeries) (n : nat) (t0 dt : npfloat)
    (pts : list npfloat) :
  n_pts s = Some n -> tmin s = Some t0 -> t_interval s = Some dt ->
  np_arange t0 (t0 + of_nat n * dt - eps_1e_4)%f dt = Ok pts ->
  set_t_pts s = (Ok tt, with_t_pts (Some pts) s).
Proof.
  intros Hn Ht0 Hdt Hpts. unfold set_t_pts. py_unfold.
  repeat (first [rewrite Ht0 | rewrite Hn | rewrite Hdt]; cbn beta iota).
  now rewrite Hpts.
Qed.

(** ** Absent and empty series *)

Lemma exists_spec (s : TimeSeries) :
  exists_ s = (Ok (negb (is_None (val s))), s).
Proof. reflexivity. Qed.

Lemma set_t_pts_unset (s : TimeSeries) :
  tmin s = None -> set_t_pts s = (Raise AttributeError, s).
Proof. intros H. unfold set_t_pts. py_unfold. now rewrite H. Qed.

Lemma set_all_vars_unset (s : TimeSeries) :
  tmin s = None -> set_all_vars s = (Raise AttributeError, s).
Proof.
  intros H. unfold set_all_vars, bind at 1.
  now rewrite (set_t_pts_unset s H).
Qed.

Lemma init_absent cpstat dt t0 swm swe dl ds nm sv lbl s :
  __init__ None cpstat dt t0 swm swe dl ds nm sv lbl false new_object
    = (Ok tt, s) ->
  val s = None /\ n_pts s = None /\ tmin s = None /\ t_interval s = None
  /\ sw_width_mean s = None /\ sw_width_ews s = None
  /\ t_pts s = None /\ ratio_to_sw_mean s = None /\ variance s = None
  /\ skewness s = None /\ autocorrelation s = None /\ kendall_tau s = None.
Proof.
  unfold __init__. py_unfold. cbn.
  destruct (String.eqb sv ""); cbn.
  - intros H. injection H as <-. cbn. repeat split.
  - destruct cpstat as [c|]; cbn; [|discriminate].
    intros H. injection H as <-. cbn. repeat split.
Qed.

Lemma init_populated v cpstat dt t0 swm swe dl ds nm lbl :
  let s := snd (__init__ (Some v) cpstat dt t0 swm swe dl ds nm "" lbl false
                  new_object) in
  fst (__init__ (Some v) cpstat dt t0 swm swe dl ds nm "" lbl false new_object)
  = Ok tt
  /\ val s = Some v /\ n_pts s = Some (length v)
  /\ sw_width_ews s = Some swe /\ label s = lbl
  /\ sw_width_mean s
     = Some (match cpstat with Some c => cp_sw_width c | None => swm end)
  /\ t_pts s = None /\ ratio_to_sw_mean s = None /\ variance s = None
  /\ skewness s = None /\ autocorrelation s = None /\ kendall_tau s = None.
Proof.
  destruct cpstat; cbn; repeat split.
Qed.


Lemma rolling_empty (w : Z) (k : list npfloat -> npfloat) :
  (1 <= w)%Z -> rolling w 1 k [] = Ok [].
Proof.
  intros Hw. unfold rolling.
  destruct (Z.ltb_spec w 0); [lia|]. destruct (Z.ltb_spec w 1); [lia|].
  reflexivity.
Qed.

Lemma set_ratio_empty (s : TimeSeries) (n : nat) (sw : Z) (rerun : bool) :
  val s = Some [] -> n_pts s = Some n -> sw_width_mean s = Some sw ->
  (is_None (ratio_to_sw_mean s) || rerun)%bool = true ->
  set_ratio_to_sw_average rerun s = (Raise IndexError, s).
Proof.
  intros Hv Hn Hsw Hrun. unfold set_ratio_to_sw_average. py_unfold.
  now rewrite Hrun, Hn, Hsw, Hv.
Qed.

(** ** The claims *)

(** C1. [set_skewness] does not reach the rolling skewness of
    [self.val]: its first statement reads the local [x] before it is
    bound, so on every object the call raises [UnboundLocalError] and
    the object, its [skewness] field included, stays as it was. *)
Theorem set_skewness_always_raises (s : TimeSeries) :
  set_skewness s = (Raise UnboundLocalError, s).
Proof. reflexivity. Qed.

(** C2. On an object built with [val=None], [set_all_vars] raises
    [AttributeError]: [set_t_pts] reads [self.tmin], which [__init__]
    never set. The derived fields are all [None] before and after. *)
Theorem set_all_vars_absent_raises cpstat dt t0 swm swe dl ds nm sv lbl s :
  __init__ None cpstat dt t0 swm swe dl ds nm sv lbl false new_object
    = (Ok tt, s) ->
  set_all_vars s = (Raise AttributeError, s)
  /\ t_pts s = None /\ ratio_to_sw_mean s = None /\ variance s = None
  /\ skewness s = None /\ autocorrelation s = None /\ kendall_tau s = None.
Proof.
  intros H. apply init_absent in H.
  destruct H as (_ & _ & Ht & _ & _ & _ & H).
  split; [now apply set_all_vars_unset | exact H].
Qed.





(** C7. [calc_kendall_tau] returns 0 whenever tau-c of the positions
    [0..k-1] and the window is [nan], and never returns [nan]. For a
    positive window width [set_kendall_tau] returns and stores one value
    for each sample; the value at index [i] is [nan] exactly when the
    window [[max(0, i + 1 - sw_width_ews), i]] holds no finite sample,
    where pandas does not call the procedure. It is not [nan] where
    [val[i]] is finite, and the sequence is free of [nan] when every
    sample is finite. *)
Theorem kendall_tau_nan_only_without_finite_sample :
  (forall w, isnan (kendalltau_c (map of_nat (seq 0 (length w))) w) = true ->
             calc_kendall_tau w = of_Z 0)
  /\ (forall w, isnan (calc_kendall_tau w) = false)
  /\ (forall (s : TimeSeries) (v : list npfloat) (sw : Z),
         val s = Some v -> sw_width_ews s = Some sw -> (0 < sw)%Z ->
         exists r,
           set_kendall_tau true s = (Ok tt, with_kendall_tau (Some r) s)
           /\ length r = length v
           /\ (forall i x, nth_error r i = Some x ->
                 isnan x = negb (existsb isfinite (window_at sw v i)))
           /\ (forall i x y, nth_error r i = Some x ->
                 nth_error v i = Some y -> isfinite y = true ->
                 isnan x = false)
           /\ (Forall (fun y => isfinite y = true) v ->
               Forall (fun x => isnan x = false) r)).
Proof.
  split; [|split].
  - intros w H. unfold calc_kendall_tau. now rewrite H.
  - apply calc_kendall_tau_not_nan.
  - intros s v sw Hv Hsw Hpos.
    assert (Hw : (1 <= sw)%Z) by lia.
    destruct (rolling_ok calc_kendall_tau v Hw) as (r & Hr & Hl).
    assert (Hnan : forall i x, nth_error r i = Some x ->
               isnan x = negb (existsb isfinite (window_at sw v i))).
    { intros i x Hx. rewrite (rolling_nth _ _ _ Hw Hr Hx).
      destruct (existsb isfinite (window_at sw v i)); [|reflexivity].
      apply calc_kendall_tau_not_nan. }
    assert (Hfin : forall i x y, nth_error r i = Some x ->
               nth_error v i = Some y -> isfinite y = true ->
               isnan x = false).
    { intros i x y Hx Hy Hf. rewrite (Hnan i x Hx).
      apply negb_false_iff, existsb_exists.
      exists y. split; [|exact Hf]. now apply window_at_has_sample. }
    exists r. split.
    + apply (set_kendall_tau_run s (v := v) (w := sw) (r := r) true);
        auto using orb_true_r.
    + split; [exact Hl|]. split; [exact Hnan|]. split; [exact Hfin|].
      intros Hall. apply Forall_forall. intros x Hx.
      apply In_nth_error in Hx as [i Hi].
      assert (Hiv : (i < length v)%nat).
      { rewrite <- Hl. apply nth_error_Some. congruence. }
      destruct (nth_error v i) as [y|] eqn:Hy;
        [|apply nth_error_None in Hy; lia].
      apply (Hfin i x y Hi Hy).
      rewrite Forall_forall in Hall. apply Hall.
      eapply nth_error_In; eassumption.
Qed.


(** C10. [exists] answers whether [val] is not [None]. An object built
    on a zero-length array is populated: [exists] is true, [n_pts] is
    0, and the setters run on it: those of the variance, of the
    autocorrelation and of Kendall's tau store an empty sequence, that
    of the ratio reaches [val[0]] and raises [IndexError]. *)
Theorem exists_tests_for_None cpstat dt t0 swm swe dl ds nm lbl :
  (forall s, exists_ s = (Ok (negb (is_None (val s))), s))
  /\ let s := snd (__init__ (Some []) cpstat dt t0 swm swe dl ds nm "" lbl
                     false new_object) in
     exists_ s = (Ok true, s) /\ n_pts s = Some 0%nat
     /\ set_ratio_to_sw_average false s = (Raise IndexError, s)
     /\ ((1 <= swe)%Z ->
         set_variance s = (Ok tt, with_variance (Some []) s)
         /\ set_autocorrelation s = (Ok tt, with_autocorrelation (Some []) s)
         /\ set_kendall_tau false s = (Ok tt, with_kendall_tau (Some []) s)).
Proof.
  split; [reflexivity|].
  destruct (init_populated [] cpstat dt t0 swm swe dl ds nm lbl)
    as (_ & Hv & Hn & Hswe & _ & Hswm & _ & Hr & _ & _ & _ & Hk).
  cbv zeta in *.
  set (s := snd (__init__ _ _ _ _ _ _ _ _ _ _ _ _ _)) in *. clearbody s.
  split; [now rewrite exists_spec, Hv|]. split; [exact Hn|].
  split; [eapply set_ratio_empty; try eassumption; now rewrite Hr|].
  intros Hw. repeat split.
  - eapply set_variance_run; [eassumption|]. rewrite Hv.
    now apply rolling_empty.
  - eapply set_autocorrelation_run; [eassumption|]. rewrite Hv.
    now apply rolling_empty.
  - eapply set_kendall_tau_run; try eassumption.
    + now rewrite Hk.
    + now apply rolling_empty.
Qed.

End Theory.

(** ** The claims on concrete series *)

Lemma set_all_vars_absent_raises_witness :
  set_all_vars absent_series = (Raise AttributeError, absent_series).
Proof.
  exact (proj1 (set_all_vars_absent_raises None (of_Z 300) (of_Z 0) 40 10
                  "" "" "" "" "" (s := absent_series) eq_refl)).
Defined.

Lemma init_absent_record_all :
  fst (__init__ None None (of_Z 300) (of_Z 0) 40 10 "" "" "" "" "" true
         new_object) = Raise AttributeError.
Proof. reflexivity. Qed.

Lemma set_all_vars_empty_raises :
  fst (set_all_vars empty_series) = Raise IndexError
  /\ t_pts (snd (set_all_vars empty_series)) = Some [].
Proof. split; vm_compute; reflexivity. Qed.








Lemma kendall_tau_nan_only_without_finite_sample_witness :
  exists r,
    set_kendall_tau true sample_series
    = (Ok tt, with_kendall_tau (Some r) sample_series)
    /\ Forall (fun x => isnan x = false) r.
Proof.
  destruct (proj2 (proj2 kendall_tau_nan_only_without_finite_sample)
              sample_series sample_val 3%Z)
    as (r & H1 & _ & _ & _ & H2); [reflexivity | reflexivity | lia |].
  exists r. split; [exact H1|]. apply H2.
  repeat constructor.
Defined.

Lemma kendall_tau_nan_counterexample :
  val nan_series = Some [NaN; of_Z 1; of_Z 2]
  /\ sw_width_ews nan_series = Some 2%Z
  /\ exists r,
       set_kendall_tau false nan_series
       = (Ok tt, with_kendall_tau (Some r) nan_series)
       /\ r = [NaN; of_Z 0; of_Z 1].
Proof.
  split; [reflexivity|]. split; [reflexivity|].
  eexists. split.
  - apply (set_kendall_tau_run nan_series (v := [NaN; of_Z 1; of_Z 2])
             (w := 2) false); reflexivity.
  - apply array_eqb_eq. vm_compute. reflexivity.
Qed.

(** C8. [set_t_pts] does not always produce [n_pts] points: the number
    of points is [ceil((stop - tmin) / t_interval)], computed in floats
    with [stop = tmin + n_pts * t_interval - 1e-4]. Five samples every
    [2 ** -10] seconds from [tmin = 2 ** 44] on give four points, all
    equal to [tmin]; five samples every [1e-5] seconds give none. For
    [tmin = 0], [t_interval = 300] and five samples the time axis is
    [[0, 300, 600, 900, 1200]]. *)
Theorem t_pts_misses_points :
  (n_pts far_series = Some 5%nat
   /\ tmin far_series = Some (of_Z (2 ^ 44))
   /\ t_interval far_series = Some (literal (1 # 1024))
   /\ literal (1 # 1024) = Fin (Q2Qc (1 # 1024))
   /\ set_t_pts far_series
      = (Ok tt, with_t_pts (Some (repeat (of_Z (2 ^ 44)) 4)) far_series))
  /\ (n_pts fast_series = Some 5%nat
      /\ tmin fast_series = Some (of_Z 0)
      /\ t_interval fast_series = Some (literal (1 # 100000))
      /\ set_t_pts fast_series = (Ok tt, with_t_pts (Some []) fast_series))
  /\ (n_pts five_series = Some 5%nat
      /\ tmin five_series = Some (of_Z 0)
      /\ t_interval five_series = Some (of_Z 300)
      /\ set_t_pts five_series
         = (Ok tt,
            with_t_pts (Some (reals [0; 300; 600; 900; 1200]%Z)) five_series)).
Proof.
  split; [|split].
  - split; [reflexivity|]. split; [reflexivity|]. split; [reflexivity|].
    split; [apply npfloat_eqb_eq; vm_compute; reflexivity|].
    apply (set_t_pts_run far_series (n := 5) (t0 := of_Z (2 ^ 44))
             (dt := literal (1 # 1024)));
      [reflexivity | reflexivity | reflexivity
       | apply result_array_eqb_eq; vm_compute; reflexivity].
  - split; [reflexivity|]. split; [reflexivity|]. split; [reflexivity|].
    apply (set_t_pts_run fast_series (n := 5) (t0 := of_Z 0)
             (dt := literal (1 # 100000)));
      [reflexivity | reflexivity | reflexivity
       | apply result_array_eqb_eq; vm_compute; reflexivity].
  - split; [reflexivity|]. split; [reflexivity|]. split; [reflexivity|].
    apply (set_t_pts_run five_series (n := 5) (t0 := of_Z 0)
             (dt := of_Z 300));
      [reflexivity | reflexivity | reflexivity
       | apply result_array_eqb_eq; vm_compute; reflexivity].
Qed.



Lemma exists_tests_for_None_witness :
  set_kendall_tau false empty_series
  = (Ok tt, with_kendall_tau (Some []) empty_series).
Proof.
  destruct (exists_tests_for_None None (of_Z 300) (of_Z 0) 40 10 "" "" "" "")
    as (_ & _ & _ & _ & H).
  destruct H as (_ & _ & H); [lia|]. exact H.
Defined.

(* ================================================================== *)
(** * Further properties *)
(* ================================================================== *)

(** ** Slices, sums and strings *)

Lemma py_slice_nth {A : Type} (l : list A) (a b : Z) (j : nat) :
  (0 <= a)%Z -> (a <= b)%Z -> (b <= Z.of_nat (length l))%Z ->
  (j < Z.to_nat (b - a))%nat ->
  nth_error (py_slice l (Some a) (Some b)) j = nth_error l (Z.to_nat a + j).
Proof.
  intros Ha Hab Hb Hj.
  rewrite (py_slice_eq l (Some a) (Some b) (a := Z.to_nat a)
             (k := Z.to_nat (b - a))) by slice_bounds.
  rewrite nth_error_firstn, nth_error_skipn.
  destruct (Nat.ltb_spec j (Z.to_nat (b - a))); [reflexivity | lia].
Qed.

Lemma py_slice_wraps {A : Type} (l : list A) (a : option Z) (n : nat) (k : Z) :
  length l = n -> (1 <= k <= Z.of_nat n)%Z ->
  py_slice l a (Some (Z.of_nat n - (Z.of_nat n + k))%Z)
  = py_slice l a (Some (Z.of_nat n - k)%Z).
Proof.
  intros Hl Hk. unfold py_slice. rewrite Hl.
  replace (slice_stop (Z.of_nat n) (Some (Z.of_nat n - (Z.of_nat n + k))%Z))
    with (slice_stop (Z.of_nat n) (Some (Z.of_nat n - k)%Z)); [reflexivity|].
  slice_bounds.
Qed.

Lemma prefix_empty (x : string) : String.prefix "" x = true.
Proof. now destruct x. Qed.

Lemma prefix_cons (a b : Ascii.ascii) (s1 s2 : string) :
  String.prefix (String a s1) (String b s2)
  = if Ascii.ascii_dec a b then String.prefix s1 s2 else false.
Proof. reflexivity. Qed.

Lemma prefix_slash_app (a x : string) :
  a <> ""%string -> String.prefix "/" (a ++ x) = String.prefix "/" a.
Proof.
  destruct a as [|ch a]; [congruence|]. intros _.
  change (String ch a ++ x)%string with (String ch (a ++ x)).
  rewrite !prefix_cons.
  destruct (Ascii.ascii_dec _ ch); [|reflexivity].
  now rewrite !prefix_empty.
Qed.

Lemma string_app_assoc (a b c : string) :
  ((a ++ b) ++ c = a ++ (b ++ c))%string.
Proof. induction a; cbn; congruence. Qed.

Lemma string_length_app (a b : string) :
  String.length (a ++ b) = (String.length a + String.length b)%nat.
Proof. induction a; cbn; auto. Qed.

Lemma last_char_app (a b : string) :
  b <> ""%string ->
  substring (String.length (a ++ b) - 1) 1 (a ++ b)
  = substring (String.length b - 1) 1 b.
Proof.
  intros Hb. induction a as [|ch a IH]; [reflexivity|].
  change (String ch a ++ b)%string with (String ch (a ++ b)).
  assert (Hk : exists k, String.length (a ++ b) = S k).
  { rewrite string_length_app.
    destruct b; [congruence|]. cbn [String.length]. eexists.
    now rewrite Nat.add_succ_r. }
  destruct Hk as [k Hk]. rewrite Hk in IH.
  cbn [String.length]. rewrite Hk.
  replace (S (S k) - 1)%nat with (S k) by lia.
  replace (S k - 1)%nat with k in IH by lia.
  cbn [substring]. exact IH.
Qed.

Lemma path_join_plain (path b : string) :
  String.prefix "/" b = false -> path <> ""%string ->
  substring (String.length path - 1) 1 path <> "/"%string ->
  path_join path b = (path ++ "/" ++ b)%string.
Proof.
  intros Hb Hp Hl. unfold path_join. rewrite Hb.
  apply String.eqb_neq in Hp, Hl. now rewrite Hp, Hl.
Qed.

(** ** Case analysis on a method run *)

Ltac break_inner :=
  match goal with
  | |- context [match ?f ?x with _ => _ end] =>
      is_var x; destruct (f x) eqn:?
  | |- context [if (?a || ?b)%bool then _ else _] =>
      destruct (a || b)%bool eqn:?
  | |- context [if (?a && ?b)%bool then _ else _] =>
      destruct (a && b)%bool eqn:?
  | |- context [if ?f ?x then _ else _] =>
      is_var x; destruct (f x) eqn:?
  | |- context [match ?f ?x ?y with _ => _ end] => destruct (f x y) eqn:?
  end; cbn beta iota.

Ltac py_eval :=
  cbn [val n_pts tmin t_interval sw_width_mean sw_width_ews label
       desc_long desc_short name savename
       t_pts variance autocorrelation skewness kendall_tau
       ratio_to_sw_mean with_t_pts with_ratio_to_sw_mean with_variance
       with_autocorrelation with_kendall_tau with_skewness
       is_None orb andb negb pd_Series snd fst];
  cbn beta iota.

Ltac break_var :=
  match goal with
  | |- context [match ?x with _ => _ end] => is_var x; destruct x
  | |- context [if ?x then _ else _] => is_var x; destruct x
  | |- context [is_None ?x] => is_var x; destruct x
  | |- context [(_ || ?x)%bool] => is_var x; destruct x
  end; py_eval.

Ltac break_call :=
  match goal with
  | |- context [match ?c with Ok _ => _ | Raise _ => _ end] =>
      let E := fresh "E" in destruct c eqn:E; py_eval; rewrite ?E; py_eval
  | |- context [if String.eqb ?a ?b then _ else _] =>
      let E := fresh "E" in
      destruct (String.eqb a b) eqn:E; py_eval; rewrite ?E; py_eval
  end.

Ltac finish_results :=
  repeat match goal with
         | H : Ok _ = Ok _ |- _ => injection H as H; subst
         | H : Ok _ = Raise _ |- _ => discriminate H
         | H : Raise _ = Ok _ |- _ => discriminate H
         | H : Raise _ = Raise _ |- _ => injection H as H; subst
         | H1 : ?x = _, H2 : ?x = _ |- _ => rewrite H1 in H2
         end; try reflexivity.

(** ** The setters *)

(** X1. The sliding mean never shows the contents of the array that
    [np.empty] returned: every slot is overwritten, so two runs that
    differ only in that memory give the same sliding mean. *)
Theorem mean_sliding_ignores_uninitialised {R : Rounding}
    (L1 L2 : Libraries) (sw : Z) (v : list npfloat) :
  (0 < sw)%Z -> v <> [] ->
  mean_sliding_of (L := L1) (length v) sw v
  = mean_sliding_of (L := L2) (length v) sw v.
Proof.
  intros Hsw Hv. destruct v as [|v0 vt]; [congruence|].
  cbn [length].
  rewrite (mean_sliding_of_eq (L := L1) v0 vt Hsw).
  rewrite (mean_sliding_of_eq (L := L2) v0 vt Hsw).
  reflexivity.
Qed.

Section Setters.

Context {R : Rounding} {L : Libraries}.

Lemma bind_raises {A B : Type} (c : Py A) (k : A -> Py B) (s : TimeSeries) :
  (forall a s1, exists e s', k a s1 = (Raise e, s')) ->
  exists e s', bind c k s = (Raise e, s').
Proof.
  intros Hk. unfold bind. destruct (c s) as [[a|e] s1].
  - apply Hk.
  - now exists e, s1.
Qed.

Lemma bind_ok {A B : Type} (c : Py A) (k : A -> Py B) (s s1 : TimeSeries)
    (a : A) :
  c s = (Ok a, s1) -> bind c k s = k a s1.
Proof. intros H. unfold bind. now rewrite H. Qed.

Lemma bind_raise {A B : Type} (c : Py A) (k : A -> Py B) (s s1 : TimeSeries)
    (e : exn) :
  c s = (Raise e, s1) -> bind c k s = (Raise e, s1).
Proof. intros H. unfold bind. now rewrite H. Qed.

Lemma set_all_vars_raises (s : TimeSeries) :
  exists e s', set_all_vars s = (Raise e, s').
Proof.
  unfold set_all_vars.
  do 4 (apply bind_raises; intros _ ?s).
  do 2 eexists. reflexivity.
Qed.

Lemma call_frame (m : setter) (rerun : option bool) (s : TimeSeries) :
  snd (call m rerun s) = s
  \/ exists r, snd (call m rerun s) = with_field m (Some r) s.
Proof.
  destruct m, rerun as [b|]; cbn [call with_field];
    unfold set_t_pts, set_ratio_to_sw_average, set_variance, set_skewness,
      set_autocorrelation, set_kendall_tau;
    py_unfold; repeat break_inner; cbn [snd]; eauto.
Qed.

Lemma call_keeps_inputs (m : setter) (rerun : option bool) (s : TimeSeries) :
  let s' := snd (call m rerun s) in
  val s' = val s /\ n_pts s' = n_pts s /\ tmin s' = tmin s
  /\ t_interval s' = t_interval s /\ sw_width_mean s' = sw_width_mean s
  /\ sw_width_ews s' = sw_width_ews s /\ desc_long s' = desc_long s
  /\ desc_short s' = desc_short s /\ label s' = label s
  /\ name s' = name s /\ savename s' = savename s.
Proof.
  cbv zeta. destruct (call_frame m rerun s) as [-> | [r ->]].
  - repeat split.
  - destruct m; repeat split.
Qed.

Lemma call_keeps_others (m m' : setter) (rerun : option bool)
    (s : TimeSeries) :
  m' <> m -> field_of m' (snd (call m rerun s)) = field_of m' s.
Proof.
  intros Hm. destruct (call_frame m rerun s) as [-> | [r ->]];
    [reflexivity|].
  destruct m, m'; try reflexivity; congruence.
Qed.

Lemma set_all_vars_steps (s : TimeSeries) :
  let s1 := snd (set_t_pts s) in
  let s2 := snd (set_ratio_to_sw_average false s1) in
  let s3 := snd (set_variance s2) in
  let s4 := snd (set_autocorrelation s3) in
  exists e s',
    set_all_vars s = (Raise e, s')
    /\ (s' = s1 \/ s' = s2 \/ s' = s3 \/ s' = s4).
Proof.
  cbv zeta. unfold set_all_vars, bind.
  destruct (set_t_pts s) as [[[]|e1] s1]; cbn [snd]; [|eauto].
  destruct (set_ratio_to_sw_average false s1) as [[[]|e2] s2]; cbn [snd];
    [|eauto 6].
  destruct (set_variance s2) as [[[]|e3] s3]; cbn [snd]; [|eauto 7].
  destruct (set_autocorrelation s3) as [[[]|e4] s4]; cbn [snd]; [|eauto 8].
  cbn. eauto 8.
Qed.

(** X2. [set_all_vars] never returns: on every object one of its
    setters raises, [set_skewness] at the latest, and the call never
    reaches [set_kendall_tau], whose cache it leaves as it was. So no
    call of [TimeSeries(..., record_all=True)] yields an object. *)
Theorem set_all_vars_never_returns :
  (forall s, exists e s', set_all_vars s = (Raise e, s')
                          /\ kendall_tau s' = kendall_tau s
                          /\ skewness s' = skewness s)
  /\ (forall v cpstat dt t0 swm swe dl ds nm sv lbl,
         exists e s',
           __init__ v cpstat dt t0 swm swe dl ds nm sv lbl true new_object
           = (Raise e, s')).
Proof.
  split.
  - intros s. destruct (set_all_vars_steps s) as (e & s' & H & Hs).
    exists e, s'. split; [exact H|].
    pose proof (call_keeps_others (m := Set_t_pts) (m' := Set_kendall_tau)
                  None s ltac:(discriminate)) as K1.
    pose proof (call_keeps_others (m := Set_t_pts) (m' := Set_skewness)
                  None s ltac:(discriminate)) as S1.
    pose proof (call_keeps_others (m := Set_ratio_to_sw_average)
                  (m' := Set_kendall_tau) None (snd (set_t_pts s))
                  ltac:(discriminate)) as K2.
    pose proof (call_keeps_others (m := Set_ratio_to_sw_average)
                  (m' := Set_skewness) None (snd (set_t_pts s))
                  ltac:(discriminate)) as S2.
    pose proof (call_keeps_others (m := Set_variance) (m' := Set_kendall_tau)
                  None (snd (set_ratio_to_sw_average false
                               (snd (set_t_pts s))))
                  ltac:(discriminate)) as K3.
    pose proof (call_keeps_others (m := Set_variance) (m' := Set_skewness)
                  None (snd (set_ratio_to_sw_average false
                               (snd (set_t_pts s))))
                  ltac:(discriminate)) as S3.
    pose proof (call_keeps_others (m := Set_autocorrelation)
                  (m' := Set_kendall_tau) None
                  (snd (set_variance (snd (set_ratio_to_sw_average false
                                             (snd (set_t_pts s))))))
                  ltac:(discriminate)) as K4.
    pose proof (call_keeps_others (m := Set_autocorrelation)
                  (m' := Set_skewness) None
                  (snd (set_variance (snd (set_ratio_to_sw_average false
                                             (snd (set_t_pts s))))))
                  ltac:(discriminate)) as S4.
    cbn [call field_of] in *.
    destruct Hs as [-> | [-> | [-> | ->]]]; split; congruence.
  - intros. unfold __init__.
    do 15 (apply bind_raises; intros ? ?).
    apply set_all_vars_raises.
Qed.

(** X3. A setter writes its own cached field and nothing else: after
    any call, returning or raising, [val], [n_pts], the time origin and
    spacing, both window widths, the descriptive strings and the cached
    fields of the other setters are as before. *)
Theorem setter_writes_only_its_field (m : setter) (rerun : option bool)
    (s : TimeSeries) :
  let s' := snd (call m rerun s) in
  (val s' = val s /\ n_pts s' = n_pts s /\ tmin s' = tmin s
   /\ t_interval s' = t_interval s /\ sw_width_mean s' = sw_width_mean s
   /\ sw_width_ews s' = sw_width_ews s /\ desc_long s' = desc_long s
   /\ desc_short s' = desc_short s /\ label s' = label s
   /\ name s' = name s /\ savename s' = savename s)
  /\ (forall m', m' <> m -> field_of m' s' = field_of m' s).
Proof.
  split; [apply call_keeps_inputs|].
  intros m' Hm. now apply call_keeps_others.
Qed.



(** X5. On an object built with [val=None] only [set_kendall_tau]
    tests [exists()]: it returns without touching the object, with or
    without [rerun]. The setters of the time axis, of the ratio, of the
    variance and of the autocorrelation, and [plot1d], raise
    [AttributeError], and leave the object as it was. *)
Theorem setters_on_absent_series cpstat dt t0 swm swe dl ds nm sv lbl s
    (rerun : bool) :
  __init__ None cpstat dt t0 swm swe dl ds nm sv lbl false new_object
    = (Ok tt, s) ->
  set_kendall_tau rerun s = (Ok tt, s)
  /\ set_t_pts s = (Raise AttributeError, s)
  /\ set_ratio_to_sw_average rerun s = (Raise AttributeError, s)
  /\ set_variance s = (Raise AttributeError, s)
  /\ set_autocorrelation s = (Raise AttributeError, s)
  /\ (forall xlog ylog ymin ymax save hline vline ibeg iend,
         plot1d xlog ylog ymin ymax save hline vline ibeg iend s
         = (Raise AttributeError, s)).
Proof.
  intros H. apply init_absent in H.
  destruct H as (Hv & Hn & Ht & Hdt & Hswm & Hswe & Hp & Hr & _).
  split; [unfold set_kendall_tau; py_unfold; now rewrite Hv|].
  split; [now apply set_t_pts_unset|].
  split; [unfold set_ratio_to_sw_average; py_unfold; rewrite Hr;
          cbn [is_None orb]; now rewrite Hn|].
  split; [unfold set_variance; py_unfold; now rewrite Hswe|].
  split; [unfold set_autocorrelation; py_unfold; now rewrite Hswe|].
  intros. unfold plot1d.
  erewrite bind_ok by (unfold read; now rewrite Hp).
  cbn [is_None]. erewrite bind_raise; [reflexivity|].
  now apply set_t_pts_unset.
Qed.

(** X6. [__init__] reads [cpstat.id] whenever [savename] is not empty:
    with a [savename] and no [cpstat] the constructor raises
    [AttributeError], whatever the other arguments. *)
Theorem init_savename_needs_cpstat v dt t0 swm swe dl ds nm sv lbl
    (record_all : bool) :
  sv <> ""%string ->
  exists s',
    __init__ v None dt t0 swm swe dl ds nm sv lbl record_all new_object
    = (Raise AttributeError, s').
Proof.
  intros Hsv. apply String.eqb_neq in Hsv.
  unfold __init__. py_unfold. rewrite Hsv.
  destruct v; cbn; eauto.
Qed.

(** ** Plotting *)

Lemma plot1d_cached (s : TimeSeries) (t v : list npfloat) (n : nat)
    (x0 : npfloat) xlog ylog ymin ymax (save : bool) hline vline
    (ibeg iend : Z) :
  t_pts s = Some t -> n_pts s = Some n -> val s = Some v ->
  tmin s = Some x0 ->
  plot1d xlog ylog ymin ymax save hline vline ibeg iend s
  = (Ok {| d_x := py_slice t (Some ibeg) (Some (Z.of_nat n - iend)%Z);
           d_y := py_slice v (Some ibeg) (Some (Z.of_nat n - iend)%Z);
           d_xlab := "Time [s]";
           d_ylab := desc_short s;
           d_xlog := xlog;
           d_xmin := x0;
           d_ylog := ylog;
           d_ymin := ymin;
           d_ymax := ymax;
           d_hline := hline;
           d_vline := vline;
           d_save := if save then savename s else "" |}, s).
Proof.
  intros Ht Hn Hv Hx. unfold plot1d. py_unfold.
  rewrite Ht. cbn [is_None]. rewrite Hn, Ht, Hv, Hx.
  now destruct save.
Qed.

Lemma plot1d_fresh (s : TimeSeries) (t v : list npfloat) (n : nat)
    (x0 : npfloat) xlog ylog ymin ymax (save : bool) hline vline
    (ibeg iend : Z) :
  t_pts s = None -> set_t_pts s = (Ok tt, with_t_pts (Some t) s) ->
  n_pts s = Some n -> val s = Some v -> tmin s = Some x0 ->
  plot1d xlog ylog ymin ymax save hline vline ibeg iend s
  = (Ok {| d_x := py_slice t (Some ibeg) (Some (Z.of_nat n - iend)%Z);
           d_y := py_slice v (Some ibeg) (Some (Z.of_nat n - iend)%Z);
           d_xlab := "Time [s]";
           d_ylab := desc_short s;
           d_xlog := xlog;
           d_xmin := x0;
           d_ylog := ylog;
           d_ymin := ymin;
           d_ymax := ymax;
           d_hline := hline;
           d_vline := vline;
           d_save := if save then savename s else "" |},
     with_t_pts (Some t) s).
Proof.
  intros Ht Hset Hn Hv Hx.
  transitivity (plot1d xlog ylog ymin ymax save hline vline ibeg iend
                  (with_t_pts (Some t) s)).
  - unfold plot1d.
    erewrite bind_ok by (unfold read; now rewrite Ht).
    cbn [is_None]. erewrite bind_ok by exact Hset.
    symmetry. erewrite bind_ok by reflexivity.
    cbn [is_None]. erewrite bind_ok by reflexivity. reflexivity.
  - now rewrite (plot1d_cached (with_t_pts (Some t) s) (t := t) (v := v)
                   (n := n) (x0 := x0)).
Qed.

(** X7. [plot1d] hands [draw_1d] the slices [ibeg_remove : n_pts -
    iend_remove] of the time axis and of [val]. Where the time axis,
    cached or computed by the call, has as many points as [val],
    dropping [ibeg_remove] points at the start and [iend_remove] at the
    end (both non-negative, at most [n] together) plots
    [n - ibeg_remove - iend_remove] points: the one of index [j] has the
    abscissa [t_pts[ibeg_remove + j]] and the ordinate
    [val[ibeg_remove + j]]. The call leaves the time axis cached,
    starts the x axis at [tmin] and saves under [savename] only when
    [save] is set. *)
Theorem plot1d_points_match (s : TimeSeries) (t v : list npfloat)
    (x0 : npfloat) xlog ylog ymin ymax (save : bool) hline vline
    (ibeg iend : Z) :
  val s = Some v -> n_pts s = Some (length v) -> tmin s = Some x0 ->
  (t_pts s = Some t
   \/ (t_pts s = None /\ set_t_pts s = (Ok tt, with_t_pts (Some t) s))) ->
  length t = length v ->
  (0 <= ibeg)%Z -> (0 <= iend)%Z -> (ibeg + iend <= Z.of_nat (length v))%Z ->
  exists d,
    plot1d xlog ylog ymin ymax save hline vline ibeg iend s
    = (Ok d, with_t_pts (Some t) s)
    /\ length (d_x d) = Z.to_nat (Z.of_nat (length v) - ibeg - iend)
    /\ length (d_y d) = length (d_x d)
    /\ (forall j, (j < length (d_x d))%nat ->
          nth_error (d_x d) j = nth_error t (Z.to_nat ibeg + j)
          /\ nth_error (d_y d) j = nth_error v (Z.to_nat ibeg + j))
    /\ d_xmin d = x0
    /\ d_save d = (if save then savename s else ""%string).
Proof.
  intros Hv Hn Hx Ht Hlt Hb He Hbe.
  set (n := length v) in *.
  eexists. split.
  { destruct Ht as [Ht | [Ht Hset]].
    - rewrite (plot1d_cached s (t := t) (v := v) (n := n) (x0 := x0))
        by assumption.
      f_equal. destruct s; cbn in *. now subst.
    - apply (plot1d_fresh (t := t) (v := v) (n := n) (x0 := x0));
        assumption. }
  cbn [d_x d_y d_xmin d_save].
  assert (Hlx : length (py_slice t (Some ibeg) (Some (Z.of_nat n - iend)%Z))
                = Z.to_nat (Z.of_nat n - ibeg - iend)).
  { rewrite py_slice_length, Hlt. slice_bounds. }
  assert (Hly : length (py_slice v (Some ibeg) (Some (Z.of_nat n - iend)%Z))
                = Z.to_nat (Z.of_nat n - ibeg - iend)).
  { rewrite py_slice_length. fold n. slice_bounds. }
  split; [exact Hlx|]. split; [congruence|].
  split; [|split; reflexivity].
  intros j Hj. rewrite Hlx in Hj. split.
  - rewrite py_slice_nth by (rewrite ?Hlt; lia). reflexivity.
  - rewrite py_slice_nth by (fold n; lia). reflexivity.
Qed.

(** X8. [plot1d] computes the time axis only when none is cached. With
    a cached axis the call leaves the object as it was, whether it
    returns or raises; without one the only field it can change is
    [t_pts]. *)
Theorem plot1d_writes_only_t_pts (s : TimeSeries)
    xlog ylog ymin ymax (save : bool) hline vline (ibeg iend : Z) :
  let s' := snd (plot1d xlog ylog ymin ymax save hline vline ibeg iend s) in
  (t_pts s <> None -> s' = s)
  /\ (s' = s \/ exists pts, s' = with_t_pts (Some pts) s).
Proof.
  cbv zeta.
  assert (H : forall s0, snd (bind (attr n_pts) (fun n =>
      bind (read t_pts) (fun t =>
      bind (lift (match t with Some l => Ok l | None => Raise TypeError end))
        (fun t =>
      bind (read val) (fun v =>
      bind (lift (match v with Some l => Ok l | None => Raise TypeError end))
        (fun v =>
      bind (read desc_short) (fun ylab =>
      bind (attr tmin) (fun x0 =>
      bind (if save then read savename else ret ""%string) (fun path =>
      ret {| d_x := py_slice t (Some ibeg) (Some (Z.of_nat n - iend)%Z);
             d_y := py_slice v (Some ibeg) (Some (Z.of_nat n - iend)%Z);
             d_xlab := "Time [s]"; d_ylab := ylab; d_xlog := xlog;
             d_xmin := x0; d_ylog := ylog; d_ymin := ymin; d_ymax := ymax;
             d_hline := hline; d_vline := vline; d_save := path |}))))))))
      s0) = s0).
  { intros s0. py_unfold.
    destruct (n_pts s0); [|reflexivity]. destruct (t_pts s0); [|reflexivity].
    destruct (val s0); [|reflexivity]. destruct (tmin s0); [|reflexivity].
    now destruct save. }
  unfold plot1d. split.
  - intros Hp. destruct (t_pts s) as [t|] eqn:Ht; [|congruence].
    erewrite bind_ok by (unfold read; now rewrite Ht).
    cbn [is_None]. erewrite bind_ok by reflexivity. apply H.
  - destruct (t_pts s) as [t|] eqn:Ht.
    + left. erewrite bind_ok by (unfold read; now rewrite Ht).
      cbn [is_None]. erewrite bind_ok by reflexivity. apply H.
    + erewrite bind_ok by (unfold read; now rewrite Ht).
      cbn [is_None].
      destruct (call_frame Set_t_pts None s) as [F|[pts F]];
        cbn [call with_field] in F;
        destruct (set_t_pts s) as [[[]|e] s1] eqn:Hs; cbn [snd] in F; subst s1.
      * left. erewrite bind_ok by exact Hs. apply H.
      * left. erewrite bind_raise by exact Hs. reflexivity.
      * right. exists pts. erewrite bind_ok by exact Hs. apply H.
      * right. exists pts. erewrite bind_raise by exact Hs. reflexivity.
Qed.

(** X9. A count of trailing points above [n] wraps around: the stop
    index [n_pts - iend_remove] turns negative and counts from the end.
    On an object whose cached time axis and samples both have [n]
    elements, [iend_remove = n + k] with [1 <= k <= n] plots exactly
    what [iend_remove = k] plots, not an empty range. *)
Theorem plot1d_iend_remove_wraps (s : TimeSeries) (t v : list npfloat)
    (n : nat) (k : Z) xlog ylog ymin ymax (save : bool) hline vline
    (ibeg : Z) :
  t_pts s = Some t -> val s = Some v -> n_pts s = Some n ->
  length t = n -> length v = n -> (1 <= k <= Z.of_nat n)%Z ->
  plot1d xlog ylog ymin ymax save hline vline ibeg (Z.of_nat n + k) s
  = plot1d xlog ylog ymin ymax save hline vline ibeg k s.
Proof.
  intros Ht Hv Hn Hlt Hlv Hk. unfold plot1d. py_unfold.
  rewrite Ht. cbn [is_None]. rewrite Hn, Ht, Hv.
  rewrite (py_slice_wraps t (Some ibeg) Hlt Hk).
  rewrite (py_slice_wraps v (Some ibeg) Hlv Hk).
  reflexivity.
Qed.

(** ** The path of the figure *)

(** X11. With a [cpstat] and a [savename], [__init__] stores the path
    [<FIGS_PATH>/<cpstat.id>/<savename>.png], provided the figure
    directory and the id are not empty and do not end with a slash and
    neither the id nor [savename] starts with one. *)
Theorem init_savename_path v (c : CanvasPartStat) dt t0 swm swe dl ds nm
    sv lbl :
  sv <> ""%string -> String.prefix "/" sv = false ->
  FIGS_PATH <> ""%string ->
  substring (String.length FIGS_PATH - 1) 1 FIGS_PATH <> "/"%string ->
  cp_id c <> ""%string -> String.prefix "/" (cp_id c) = false ->
  substring (String.length (cp_id c) - 1) 1 (cp_id c) <> "/"%string ->
  exists s,
    __init__ v (Some c) dt t0 swm swe dl ds nm sv lbl false new_object
    = (Ok tt, s)
    /\ savename s
       = (FIGS_PATH ++ "/" ++ cp_id c ++ "/" ++ sv ++ ".png")%string.
Proof.
  intros Hsv Hsv' Hf Hf' Hid Hid' Hid''.
  assert (Hpath : path_join (path_join FIGS_PATH (cp_id c)) (sv ++ ".png")
                  = (FIGS_PATH ++ "/" ++ cp_id c ++ "/" ++ sv ++ ".png")%string).
  { rewrite (@path_join_plain FIGS_PATH (cp_id c) Hid' Hf Hf').
    rewrite path_join_plain.
    - now rewrite !string_app_assoc.
    - now rewrite prefix_slash_app.
    - destruct FIGS_PATH; [congruence | discriminate].
    - rewrite <- string_app_assoc, last_char_app by assumption.
      assumption. }
  apply String.eqb_neq in Hsv.
  unfold __init__. py_unfold. rewrite Hsv.
  destruct v; cbn -[path_join]; eexists; (split; [reflexivity|]);
    cbn -[path_join]; exact Hpath.
Qed.

(** ** Calling setters again and in another order *)

(** X12. Calling a setter a second time, with the same [rerun]
    argument or without one, changes nothing: the second call returns
    or raises as the first did and leaves the object as the first call
    left it. *)
Theorem setter_twice_is_once (m : setter) (rerun : option bool)
    (s : TimeSeries) :
  call m rerun (snd (call m rerun s)) = call m rerun s.
Proof.
  destruct s.
  destruct m, rerun as [b|]; cbn [call];
    unfold set_t_pts, set_ratio_to_sw_average, set_variance, set_skewness,
      set_autocorrelation, set_kendall_tau;
    py_unfold; py_eval; try reflexivity.
  all: repeat break_var; try reflexivity.
  all: repeat break_call; try reflexivity.
  all: finish_results.
Qed.

(** X13. Two different setters can be called in either order: the
    object after both calls is the same, whether the calls return or
    raise. *)
Theorem setters_commute (m1 m2 : setter) (r1 r2 : option bool)
    (s : TimeSeries) :
  m1 <> m2 ->
  snd (call m2 r2 (snd (call m1 r1 s)))
  = snd (call m1 r1 (snd (call m2 r2 s))).
Proof.
  intros Hm. destruct s.
  destruct m1, m2; try congruence; clear Hm;
    destruct r1 as [b1|], r2 as [b2|]; cbn [call];
    unfold set_t_pts, set_ratio_to_sw_average, set_variance, set_skewness,
      set_autocorrelation, set_kendall_tau;
    py_unfold; py_eval; try reflexivity.
  all: repeat break_var; try reflexivity.
  all: repeat break_call; try reflexivity.
  all: finish_results.
Qed.

End Setters.

(** ** The further properties on concrete series *)

Lemma mean_sliding_ignores_uninitialised_witness :
  mean_sliding_of (L := reference_libs) 6 2 sample_val
  = mean_sliding_of (L := zero_filled_libs) 6 2 sample_val.
Proof.
  apply (mean_sliding_ignores_uninitialised reference_libs zero_filled_libs
           (sw := 2) (v := sample_val)); [lia | discriminate].
Defined.

Lemma setter_writes_only_its_field_witness :
  variance (snd (call Set_ratio_to_sw_average None sample_series))
  = variance sample_series.
Proof.
  exact (proj2 (setter_writes_only_its_field Set_ratio_to_sw_average None
                  sample_series)
               Set_variance ltac:(discriminate)).
Defined.


Lemma setters_on_absent_series_witness :
  set_kendall_tau true absent_series = (Ok tt, absent_series).
Proof.
  exact (proj1 (setters_on_absent_series None (of_Z 300) (of_Z 0) 40 10
                  "" "" "" "" "" (s := absent_series) true eq_refl)).
Defined.

Lemma init_savename_needs_cpstat_witness :
  exists s',
    __init__ (Some sample_val) None (of_Z 300) (of_Z 0) 2 3 "" "" ""
      "ratio" "" false new_object
    = (Raise AttributeError, s').
Proof.
  apply init_savename_needs_cpstat. discriminate.
Defined.

Lemma plot1d_points_match_witness :
  exists d,
    plot1d false false None None true None None 1 2 five_series
    = (Ok d,
       with_t_pts (Some (reals [0; 300; 600; 900; 1200]%Z)) five_series)
    /\ length (d_x d) = 2%nat /\ length (d_y d) = 2%nat.
Proof.
  destruct (plot1d_points_match (s := five_series)
              (t := reals [0; 300; 600; 900; 1200]%Z)
              (v := reals [1; 2; 3; 4; 5]%Z) (x0 := of_Z 0)
              false false None None true None None (ibeg := 1) (iend := 2))
    as (d & H & Hx & Hy & _);
    [reflexivity | reflexivity | reflexivity
     | right; split; [reflexivity|];
       apply (set_t_pts_run five_series (n := 5) (t0 := of_Z 0)
                (dt := of_Z 300));
       [reflexivity | reflexivity | reflexivity
        | apply result_array_eqb_eq; vm_compute; reflexivity]
     | reflexivity | lia | lia | cbn; lia |].
  exists d. split; [exact H|]. split; [exact Hx | now rewrite Hy, Hx].
Defined.

Lemma plot1d_writes_only_t_pts_witness :
  let s := with_t_pts (Some (reals [0; 300; 600; 900; 1200]%Z)) five_series in
  snd (plot1d false false None None true None None 0 0 s) = s.
Proof.
  intros s.
  apply (proj1 (plot1d_writes_only_t_pts s false false None None true None
                  None 0 0)).
  discriminate.
Defined.

Lemma plot1d_iend_remove_wraps_witness :
  let s := with_t_pts (Some (reals [0; 300; 600; 900; 1200]%Z)) five_series in
  plot1d false false None None true None None 0 7 s
  = plot1d false false None None true None None 0 2 s.
Proof.
  intros s.
  apply (plot1d_iend_remove_wraps s
           (t := reals [0; 300; 600; 900; 1200]%Z)
           (v := reals [1; 2; 3; 4; 5]%Z) (n := 5) (k := 2));
    try reflexivity. lia.
Defined.

(** X10. The ratio of a constant series to its sliding mean is not
    always 1. On four samples equal to [0.1] with a window width of 3,
    the running sums are [0.1, 0.2, 0.30000000000000004, 0.4], the
    sliding mean at index 3 is [0.10000000000000002] and the ratio
    stored there is [0.9999999999999999]. *)
Theorem constant_series_ratio_rounds :
  val tenth_series = Some (repeat (literal (1 # 10)) 4)
  /\ n_pts tenth_series = Some 4%nat
  /\ sw_width_mean tenth_series = Some 3%Z
  /\ autoco_label (label tenth_series) = false
  /\ np_cumsum (repeat (literal (1 # 10)) 4)
     = [literal (1 # 10); literal (2 # 10);
        Fin (Q2Qc (1351079888211149 # 4503599627370496));
        literal (4 # 10)]
  /\ mean_sliding_of 4 3 (repeat (literal (1 # 10)) 4)
     = Ok [literal (1 # 10); literal (1 # 10); literal (1 # 10);
           Fin (Q2Qc (7205759403792795 # 72057594037927936))]
  /\ exists r,
       set_ratio_to_sw_average false tenth_series
       = (Ok tt, with_ratio_to_sw_mean (Some r) tenth_series)
       /\ r = [of_Z 1; of_Z 1; of_Z 1;
               Fin (Q2Qc (9007199254740991 # 9007199254740992))].
Proof.
  assert (Hms : mean_sliding_of 4 3 (repeat (literal (1 # 10)) 4)
     = Ok [literal (1 # 10); literal (1 # 10); literal (1 # 10);
           Fin (Q2Qc (7205759403792795 # 72057594037927936))])
    by (apply result_array_eqb_eq; vm_compute; reflexivity).
  split; [reflexivity|]. split; [reflexivity|]. split; [reflexivity|].
  split; [reflexivity|].
  split; [apply array_eqb_eq; vm_compute; reflexivity|].
  split; [exact Hms|].
  eexists. split.
  - refine (set_ratio_run tenth_series (v := repeat (literal (1 # 10)) 4)
              (sw := 3) false _ _ _ _ Hms _); reflexivity.
  - apply array_eqb_eq. vm_compute. reflexivity.
Qed.

(** X14. [plot1d] can hand [draw_1d] abscissae and ordinates of
    different lengths: on five samples every [2 ** -10] seconds from
    [tmin = 2 ** 44] on, with no point removed, it computes a time axis
    of four points and passes four abscissae with five ordinates. *)
Theorem plot1d_lengths_differ :
  exists d,
    plot1d false false None None true None None 0 0 far_series
    = (Ok d, with_t_pts (Some (repeat (of_Z (2 ^ 44)) 4)) far_series)
    /\ d_x d = repeat (of_Z (2 ^ 44)) 4
    /\ d_y d = reals [1; 2; 3; 4; 5]%Z.
Proof.
  eexists. split.
  - apply (plot1d_fresh (s := far_series) (t := repeat (of_Z (2 ^ 44)) 4)
             (v := reals [1; 2; 3; 4; 5]%Z) (n := 5)
             (x0 := of_Z (2 ^ 44)));
      [reflexivity
      | apply (set_t_pts_run far_series (n := 5) (t0 := of_Z (2 ^ 44))
                 (dt := literal (1 # 1024)));
        [reflexivity | reflexivity | reflexivity
         | apply result_array_eqb_eq; vm_compute; reflexivity]
      | reflexivity | reflexivity | reflexivity].
  - split; reflexivity.
Qed.

(** X15. The guard [- 1e-4] of [set_t_pts] absorbs the rounding of
    [n_pts * t_interval]. For three samples every [0.1] seconds from 0
    on, [3 * 0.1] is [0.30000000000000004] and the range up to it has
    four points; the range of [set_t_pts], which stops [1e-4] earlier,
    has the three points [[0, 0.1, 0.2]]. *)
Theorem t_pts_guard_absorbs_rounding :
  n_pts tenth_spaced_series = Some 3%nat
  /\ tmin tenth_spaced_series = Some (of_Z 0)
  /\ t_interval tenth_spaced_series = Some (literal (1 # 10))
  /\ (of_nat 3 * literal (1 # 10))%f
     = Fin (Q2Qc (1351079888211149 # 4503599627370496))
  /\ np_arange (of_Z 0) (of_Z 0 + of_nat 3 * literal (1 # 10))%f
       (literal (1 # 10))
     = Ok [of_Z 0; literal (1 # 10); literal (2 # 10);
           Fin (Q2Qc (1351079888211149 # 4503599627370496))]
  /\ set_t_pts tenth_spaced_series
     = (Ok tt,
        with_t_pts (Some [of_Z 0; literal (1 # 10); literal (2 # 10)])
          tenth_spaced_series).
Proof.
  split; [reflexivity|]. split; [reflexivity|]. split; [reflexivity|].
  split; [apply npfloat_eqb_eq; vm_compute; reflexivity|].
  split; [apply result_array_eqb_eq; vm_compute; reflexivity|].
  apply (set_t_pts_run tenth_spaced_series (n := 3) (t0 := of_Z 0)
           (dt := literal (1 # 10)));
    [reflexivity | reflexivity | reflexivity
     | apply result_array_eqb_eq; vm_compute; reflexivity].
Qed.

Lemma init_savename_path_witness :
  exists s,
    __init__ (Some sample_val) (Some sample_cpstat) (of_Z 300) (of_Z 0) 2 3
      "" "" "" "ratio" "" false new_object
    = (Ok tt, s)
    /\ savename s = "figs/12/ratio.png"%string.
Proof.
  apply (init_savename_path (L := reference_libs) (Some sample_val)
           sample_cpstat (of_Z 300) (of_Z 0) 2 3 "" "" "" (sv := "ratio") "");
    try reflexivity; discriminate.
Defined.

Lemma setters_commute_witness :
  snd (call Set_variance None (snd (call Set_t_pts None sample_series)))
  = snd (call Set_t_pts None (snd (call Set_variance None sample_series))).
Proof.
  apply setters_commute. discriminate.
Defined.
